(** * scholar_scraping: a shallow embedding of [scholar_scraping.py]

    The script walks the listing pages of an author directory, extracts the
    profile links of each page, fetches every author from a data provider and
    saves a folder per author.  The pure parts (string search, the two
    regular expressions, the citation sums) are Rocq functions; the effectful
    parts run in a state-and-exception monad over a world made of the
    directory tree and a trace of the external calls. *)

From Stdlib Require Import ZArith Ascii String List Lia.
From stdpp Require Import base option gmap strings list fin_maps pretty.

Local Open Scope string_scope.
Local Open Scope Z_scope.

(** ** Python exceptions and results *)

Inductive exn : Type :=
  | ValueError
  | KeyError
  | IndexError
  | TypeError
  | FileExistsError
  | FileNotFoundError
  | PermissionError
  | OSError
  | RequestException
  | ProviderError.

Inductive res (A : Type) : Type :=
  | Ok (a : A)
  | Raise (e : exn).
Arguments Ok {A} a.
Arguments Raise {A} e.

Definition res_bind {A B} (r : res A) (k : A -> res B) : res B :=
  match r with
  | Ok a => k a
  | Raise e => Raise e
  end.

(** [d[key]] on a field that may be absent. *)
Definition getitem {A} (field : option A) : res A :=
  match field with
  | Some a => Ok a
  | None => Raise KeyError
  end.

(** ** Python strings *)

Module PyStr.

Definition dq : string := String "034"%char "".
Definition newline : ascii := "010"%char.

Fixpoint drop (n : nat) (s : string) : string :=
  match n, s with
  | O, _ => s
  | S n', String _ s' => drop n' s'
  | S _, "" => ""
  end.

Fixpoint take (n : nat) (s : string) : string :=
  match n, s with
  | O, _ => ""
  | S n', String c s' => String c (take n' s')
  | S _, "" => ""
  end.

(** [s.startswith(p)] *)
Fixpoint startswith (p s : string) : bool :=
  match p, s with
  | "", _ => true
  | String a p', String b s' => Ascii.eqb a b && startswith p' s'
  | String _ _, "" => false
  end.

(** [s.find(sub)]: the lowest index at which [sub] occurs. *)
Fixpoint find (sub s : string) : option nat :=
  if startswith sub s then Some O
  else match s with
       | "" => None
       | String _ s' => option_map S (find sub s')
       end.

(** [sub in s] *)
Definition contains (sub s : string) : bool :=
  match find sub s with Some _ => true | None => false end.

(** [s.index(sub)] *)
Definition index (sub s : string) : res nat :=
  match find sub s with
  | Some i => Ok i
  | None => Raise ValueError
  end.

(** [s[1:-3]] *)
Definition slice_1_m3 (s : string) : string :=
  take (String.length s - 3 - 1) (drop 1 s).

(** [s.replace(old, new)] for a non-empty [old]: occurrences are replaced
    from the left and do not overlap.  [skip] counts the characters of an
    occurrence already replaced that remain to be passed over. *)
Fixpoint replace_go (old new : string) (skip : nat) (s : string) : string :=
  match s with
  | "" => ""
  | String c s' =>
      match skip with
      | S k => replace_go old new k s'
      | O => if startswith old s
             then new +:+ replace_go old new (String.length old - 1) s'
             else String c (replace_go old new O s')
      end
  end.

Definition replace (old new s : string) : string := replace_go old new O s.

End PyStr.

(** ** The two regular expressions

    Both patterns of the script have the shape [pre(.+?)post], where [pre] and
    [post] are made of literal characters and of [.], and [re.findall]
    returns the list of the groups. *)

Module Re.

Inductive tok : Type :=
  | Lit (c : ascii)
  | Dot.

Definition tok_matches (t : tok) (c : ascii) : bool :=
  match t with
  | Lit a => Ascii.eqb a c
  | Dot => negb (Ascii.eqb c PyStr.newline)
  end.

Fixpoint compile (s : string) : list tok :=
  match s with
  | "" => []
  | String c s' => (if Ascii.eqb c "."%char then Dot else Lit c) :: compile s'
  end.

Record regex : Type := { pre : list tok; post : list tok }.

(** The tokens match a prefix of the string. *)
Fixpoint match_toks (ts : list tok) (s : string) : option string :=
  match ts, s with
  | [], _ => Some s
  | t :: ts', String c s' => if tok_matches t c then match_toks ts' s' else None
  | _ :: _, "" => None
  end.

(** The lazy group after its first character: the shortest extension that
    is followed by [post]; a newline stops the search. *)
Fixpoint lazy_more (post : list tok) (s : string) : option string :=
  match match_toks post s with
  | Some _ => Some ""
  | None =>
      match s with
      | "" => None
      | String c s' =>
          if Ascii.eqb c PyStr.newline then None
          else option_map (String c) (lazy_more post s')
      end
  end.

Definition lazy_group (post : list tok) (s : string) : option string :=
  match s with
  | "" => None
  | String c s' =>
      if Ascii.eqb c PyStr.newline then None
      else option_map (String c) (lazy_more post s')
  end.

(** The group of the match that starts at the head of [s], if any. *)
Definition match_here (r : regex) (s : string) : option string :=
  match match_toks (pre r) s with
  | Some rest => lazy_group (post r) rest
  | None => None
  end.

(** [re.findall]: the matches are searched from the left and do not
    overlap; after a match the scan resumes at its end.  [skip] counts the
    characters of the last match that remain to be passed over. *)
Fixpoint findall_go (r : regex) (skip : nat) (s : string) : list string :=
  match s with
  | "" => []
  | String _ s' =>
      match skip with
      | S k => findall_go r k s'
      | O =>
          match match_here r s with
          | Some g =>
              g :: findall_go r
                     (length (pre r) + String.length g + length (post r) - 1) s'
          | None => findall_go r O s'
          end
      end
  end.

Definition findall (r : regex) (s : string) : list string := findall_go r O s.

End Re.

(** ** Constants of the script *)

Definition GOOGLE_SCHOLAR_URL_PREFIX : string := "https://scholar.google.com/".

(** The author anchor: the class name [gs_ai_name], the opening of the
    anchor up to its [href], the group, and the end of the tag. *)
Definition REGEX_TO_FIND_AUTHOR_NAME : Re.regex :=
  {| Re.pre := Re.compile ("gs_ai_name" +:+ PyStr.dq +:+ "><a href=" +:+ PyStr.dq);
     Re.post := Re.compile (PyStr.dq +:+ ">") |}.

(** The navigation assignment [window.location=], the group, and the
    [type] attribute of the button that follows it.  The dot of
    [window.location] is the wildcard of the pattern language. *)
Definition REGEX_TO_FIND_NEXT_PAGE : Re.regex :=
  {| Re.pre := Re.compile "window.location=";
     Re.post := Re.compile ("type=" +:+ PyStr.dq +:+ "button" +:+ PyStr.dq) |}.

(** ** Paginator: the link to the next listing page

    [soup] stands for [str(soup)], the string form of the parsed page. *)

(** The [for r in result] loop: the last match that contains ['after']
    stays in [next_page_link]. *)
Fixpoint select_after (result : list string) (next_page_link : string) : string :=
  match result with
  | [] => next_page_link
  | r :: rest =>
      select_after rest (if PyStr.contains "after" r then r else next_page_link)
  end.

Definition next_page (soup : string) : res string :=
  let result := Re.findall REGEX_TO_FIND_NEXT_PAGE soup in
  let next_page_link := select_after result "" in
  if String.eqb next_page_link "" then Raise ValueError
  else
    let next_page_link := PyStr.slice_1_m3 next_page_link in
    let next_page_link :=
      PyStr.replace "\x26" "&" (PyStr.replace "\x3d" "=" next_page_link) in
    Ok ("https://scholar.google.co.il" +:+ next_page_link).

(** ** The author id of a profile link *)

Definition get_author_id (link : string) : res string :=
  res_bind (PyStr.index "user=" link)
    (fun i => Ok (PyStr.drop (i + String.length "user=") link)).

(** ** Citation Aggregator

    A value of the series is a number or not ([None] stands for any value
    that [+=] rejects); the series is the dictionary's items in insertion
    order. *)

Inductive pyval : Type :=
  | VInt (z : Z)
  | VNone.

Definition pydict : Type := list (pyval * pyval).

Definition values (d : pydict) : list pyval := map snd d.
Definition keys (d : pydict) : list pyval := map fst d.

(** [total += val] with [total] an int *)
Definition py_add (total : Z) (val : pyval) : res Z :=
  match val with
  | VInt z => Ok (total + z)
  | VNone => Raise TypeError
  end.

Fixpoint first_10_loop (vals : list pyval) (total i : Z) : res Z :=
  match vals with
  | [] => Ok total
  | val :: rest =>
      res_bind (py_add total val) (fun total =>
      let i := i + 1 in
      if i >=? 10 then Ok total else first_10_loop rest total i)
  end.

Definition get_num_of_first_10_years_citations (citations : pydict) : res Z :=
  first_10_loop (values citations) 0 0.

Fixpoint since_n_loop (vals : list pyval) (n check total i : Z) : res Z :=
  match vals with
  | [] => Ok total
  | val :: rest =>
      if check >=? n then
        res_bind (py_add total val) (fun total =>
        let i := i + 1 in
        if i >=? 10 then Ok total else since_n_loop rest n check total i)
      else
        res_bind (py_add check val) (fun check =>
        since_n_loop rest n check total i)
  end.

Definition get_num_of_citations_since_n_citations (citations : pydict) (n : Z)
  : res Z :=
  since_n_loop (values citations) n 0 0 0.

(** ** Author profiles

    The provider returns a dictionary; any key may be missing.  The fields
    that the script only passes to [str] are kept as that string. *)

Record coauthor : Type := { co_name : option string }.

Record profile : Type := {
  name : option string;
  affiliation : option string;
  interests : option string;
  citedby : option string;
  citedby5y : option string;
  hindex : option string;
  i10index : option string;
  coauthors : option (list coauthor);
  cites_per_year : option pydict;
  url_picture : option string
}.

Definition nl : string := String PyStr.newline "".

Definition py_repr (v : pyval) : string :=
  match v with
  | VInt z => pretty z
  | VNone => "None"
  end.

Fixpoint join (sep : string) (l : list string) : string :=
  match l with
  | [] => ""
  | [x] => x
  | x :: rest => x +:+ sep +:+ join sep rest
  end.

(** [str(d)] for a dictionary *)
Definition dict_str (d : pydict) : string :=
  "{" +:+ join ", " (map (fun kv => py_repr (fst kv) +:+ ": " +:+ py_repr (snd kv)) d)
      +:+ "}".

(** [int(v)] *)
Definition py_int (v : pyval) : res Z :=
  match v with
  | VInt z => Ok z
  | VNone => Raise TypeError
  end.

(** [l[-1]] *)
Definition last_item {A} (l : list A) : res A :=
  match last l with
  | Some a => Ok a
  | None => Raise IndexError
  end.

Fixpoint co_authors_loop (co_authors : list coauthor) (authors_string : string)
  : res string :=
  match co_authors with
  | [] => Ok authors_string
  | author :: rest =>
      res_bind (getitem (co_name author)) (fun n =>
      co_authors_loop rest (authors_string +:+ nl +:+ n))
  end.

Definition get_co_authors_str (co_authors : list coauthor) : res string :=
  co_authors_loop co_authors (" (" +:+ pretty (length co_authors) +:+ "):").

(** ** The world: directory tree, external calls, output

    A directory is known by its path and holds files by name; the
    directories of the model are the folders of the authors.  The trace
    records, in order, what the run prints, the pages and pictures it
    requests (with the place of the call; a request is recorded when it is
    made, whether or not it raises) and the authors it looks up. *)

Inductive call_site : Type := SkipPage | LoadPage | Picture.

Inductive event : Type :=
  | Print (msg : string)
  | Get (site : call_site) (url : string)
  | SearchAuthor (author_id : string).

Record world : Type := {
  fs : gmap string (gmap string string);
  trace : list event
}.

Inductive os_fault : Type := ENOENT | EACCES | EIO.

Definition exn_of_fault (f : os_fault) : exn :=
  match f with
  | ENOENT => FileNotFoundError
  | EACCES => PermissionError
  | EIO => OSError
  end.

(** The collaborators of a run: the HTTP layer ([None]: the request
    raises), the string form of a parsed page, the author data provider
    ([search_author_id] then [fill]), the failures of the file system other
    than an existing or missing directory, and the calendar. *)
Record env : Type := {
  requests_get : string -> option string;
  soup_str : string -> string;
  scholarly_fetch : string -> res profile;
  mkdir_fault : string -> option os_fault;
  open_fault : string -> option os_fault;
  today_year : Z
}.

(** ** State and exception monad *)

Definition M (A : Type) : Type := world -> res A * world.

Definition ret {A} (a : A) : M A := fun w => (Ok a, w).

Definition raise {A} (e : exn) : M A := fun w => (Raise e, w).

Definition bind {A B} (m : M A) (k : A -> M B) : M B :=
  fun w =>
    match m w with
    | (Ok a, w') => k a w'
    | (Raise e, w') => (Raise e, w')
    end.

Definition lift {A} (r : res A) : M A := fun w => (r, w).

(** [try: m  except: h] *)
Definition catch {A} (m : M A) (h : exn -> M A) : M A :=
  fun w =>
    match m w with
    | (Ok a, w') => (Ok a, w')
    | (Raise e, w') => h e w'
    end.

Declare Scope py_scope.
Delimit Scope py_scope with py.
Notation "x <- m ;; k" := (bind m (fun x => k))
  (at level 100, m at next level, right associativity) : py_scope.
Notation "m ;;; k" := (bind m (fun _ => k))
  (at level 100, right associativity) : py_scope.
Local Open Scope py_scope.

Definition log (e : event) (w : world) : world :=
  {| fs := fs w; trace := trace w ++ [e] |}.

Definition with_fs (f : gmap string (gmap string string)) (w : world) : world :=
  {| fs := f; trace := trace w |}.

Definition emit (e : event) : M unit := fun w => (Ok tt, log e w).

Definition print (msg : string) : M unit := emit (Print msg).

Definition set_fs (f : gmap string (gmap string string)) : M unit :=
  fun w => (Ok tt, with_fs f w).

Definition get_fs : M (gmap string (gmap string string)) :=
  fun w => (Ok (fs w), w).

(** ** External calls *)

Definition http_get (E : env) (site : call_site) (url : string) : M string :=
  emit (Get site url) ;;;
  match requests_get E url with
  | Some content => ret content
  | None => raise RequestException
  end.

Definition search_and_fill (E : env) (author_id : string) : M profile :=
  emit (SearchAuthor author_id) ;;; lift (scholarly_fetch E author_id).

(** [os.mkdir]: an existing path is [FileExistsError]; otherwise the
    directory is made unless the file system refuses (no parent, no
    permission, ...). *)
Definition os_mkdir (E : env) (path : string) : M unit :=
  f <- get_fs ;;
  match f !! path with
  | Some _ => raise FileExistsError
  | None =>
      match mkdir_fault E path with
      | Some fault => raise (exn_of_fault fault)
      | None => set_fs (<[path := ∅]> f)
      end
  end.

(** [open(dir\file, mode w)]: the file is created or emptied. *)
Definition open_w (E : env) (dir file : string) : M unit :=
  f <- get_fs ;;
  match f !! dir with
  | None => raise FileNotFoundError
  | Some files =>
      match open_fault E (dir +:+ "\" +:+ file) with
      | Some fault => raise (exn_of_fault fault)
      | None => set_fs (<[dir := <[file := ""]> files]> f)
      end
  end.

Definition file_write (dir file data : string) : M unit :=
  f <- get_fs ;;
  set_fs (alter (alter (fun old => old +:+ data) file) dir f).

(** [rmtree] of a directory that is there removes it with its files. *)
Definition rmtree (path : string) : M unit :=
  f <- get_fs ;;
  match f !! path with
  | None => raise FileNotFoundError
  | Some _ => set_fs (delete path f)
  end.

(** ** Author Extractor *)

Definition new_folder (E : env) (path : string) : M bool :=
  catch
    (os_mkdir E path ;;;
     print ("Researcher " +:+ path +:+ " Created ") ;;;
     ret true)
    (fun e =>
       match e with
       | FileExistsError =>
           print ("Researcher " +:+ path +:+ " already exists") ;;; ret true
       | _ =>
           print ("The program was not able to save the Researcher  " +:+ path) ;;;
           ret false
       end).

Definition PICTURE : string := "Author_picture.png".
Definition DATA : string := "Author_data.txt".

(** The [try] block that saves the picture; [false]: the function returns
    [False] from its handler. *)
Definition save_picture (E : env) (author : profile) (author_name : string)
    (profile_link cur_folder_path : string) : M bool :=
  catch
    (url <- lift (getitem (url_picture author)) ;;
     content <- http_get E Picture url ;;
     open_w E cur_folder_path PICTURE ;;;
     file_write cur_folder_path PICTURE content ;;;
     ret true)
    (fun e =>
       match e with
       | KeyError =>
           print ("Author " +:+ author_name +:+ " has no picture") ;;; ret true
       | _ =>
           print ("Failure while downloading data for author: " +:+ profile_link) ;;;
           ret false
       end).

(** The body of the [try] block of the derived statistics. *)
Definition statistics (author : profile) : res (Z * Z * Z) :=
  res_bind (getitem (cites_per_year author)) (fun c =>
  res_bind (get_num_of_first_10_years_citations c) (fun ten_year =>
  res_bind (getitem (cites_per_year author)) (fun c =>
  res_bind (get_num_of_citations_since_n_citations c 100) (fun ten_year_since_100 =>
  res_bind (getitem (cites_per_year author)) (fun c =>
  res_bind (get_num_of_citations_since_n_citations c 500) (fun ten_year_since_500 =>
  Ok (ten_year, ten_year_since_100, ten_year_since_500))))))).

(** The [try] block of the derived statistics; [None]: the function
    returns [False] from its handler, after [rmtree]. *)
Definition derived_statistics (author : profile) (author_name : string)
    (cur_folder_path : string) : M (option (Z * Z * Z)) :=
  catch
    (stats <- lift (statistics author) ;; ret (Some stats))
    (fun _ =>
       print ("No citations data for current author " +:+ author_name
              +:+ ", so he is deleted") ;;;
       rmtree cur_folder_path ;;;
       ret None).

(** The list [L] of the text artifact; its items are evaluated in order. *)
Definition data_lines (author : profile) (ten_year t100 t500 : Z)
  : res (list string) :=
  res_bind (getitem (name author)) (fun a_name =>
  res_bind (getitem (affiliation author)) (fun a_affiliation =>
  res_bind (getitem (interests author)) (fun a_interests =>
  res_bind (getitem (citedby author)) (fun a_citedby =>
  res_bind (getitem (citedby5y author)) (fun a_citedby5y =>
  res_bind (getitem (hindex author)) (fun a_hindex =>
  res_bind (getitem (i10index author)) (fun a_i10index =>
  res_bind (getitem (coauthors author)) (fun a_coauthors =>
  res_bind (get_co_authors_str a_coauthors) (fun co_str =>
  res_bind (getitem (cites_per_year author)) (fun a_cites =>
  Ok ["Name: "; a_name; nl +:+ "Affiliation: "; a_affiliation;
      nl +:+ "Interests: "; a_interests;
      nl +:+ "Cited by: "; a_citedby;
      nl +:+ "Cited in the last 5 years: "; a_citedby5y;
      nl +:+ "h-index: "; a_hindex; nl +:+ "i10 index: "; a_i10index;
      nl +:+ "Co authors"; co_str; nl +:+ "Citations per year: ";
      dict_str a_cites;
      nl +:+ "Total No. of citations in the first 10 years: "; pretty ten_year;
      nl +:+ "Num of citations since 100 until 10 years later: "; pretty t100;
      nl +:+ "Num of citations since 500 until 10 years later: "; pretty t500]
  )))))))))).

(** The argument of the last [write]. *)
Definition last_line (E : env) (author : profile) : res string :=
  res_bind (getitem (cites_per_year author)) (fun c =>
  res_bind (last_item (keys c)) (fun k =>
  res_bind (py_int k) (fun y =>
  Ok (nl +:+ "Number of years with 0 citations: " +:+ pretty (today_year E - y))))).

(** The end of [create_profile]: the text artifact. *)
Definition save_data (E : env) (author : profile) (cur_folder_path : string)
    (stats : Z * Z * Z) : M bool :=
  let '(ten_year, ten_year_since_100, ten_year_since_500) := stats in
  open_w E cur_folder_path DATA ;;;
  L <- lift (data_lines author ten_year ten_year_since_100 ten_year_since_500) ;;
  file_write cur_folder_path DATA (String.concat "" L) ;;;
  line <- lift (last_line E author) ;;
  file_write cur_folder_path DATA line ;;;
  ret true.

Definition folder_path (path author_name : string) : string :=
  path +:+ "\" +:+ author_name.

(** [create_profile] from the folder on, with the author fetched. *)
Definition save_profile (E : env) (author : profile)
    (profile_link path : string) : M bool :=
  author_name <- lift (getitem (name author)) ;;
  let cur_folder_path := folder_path path author_name in
  created <- new_folder E cur_folder_path ;;
  if negb created then ret false else
  saved <- save_picture E author author_name profile_link cur_folder_path ;;
  if negb saved then ret false else
  stats <- derived_statistics author author_name cur_folder_path ;;
  match stats with
  | None => ret false
  | Some stats => save_data E author cur_folder_path stats
  end.

Definition create_profile (E : env) (profile_link path : string) : M bool :=
  author_id <- lift (get_author_id profile_link) ;;
  author <- search_and_fill E author_id ;;
  save_profile E author profile_link path.

(** ** Page Extractor *)

Fixpoint dispatch (E : env) (profile_links : list string) (output_dir : string)
  : M unit :=
  match profile_links with
  | [] => ret tt
  | link :: rest =>
      catch (create_profile E link output_dir ;;; ret tt)
        (fun e =>
           match e with
           | FileNotFoundError =>
               print ("There was a problem with author: " +:+ link)
           | _ => raise e
           end) ;;;
      dispatch E rest output_dir
  end.

Definition profile_links_of (soup : string) : list string :=
  map (fun postfix => GOOGLE_SCHOLAR_URL_PREFIX +:+ postfix)
      (Re.findall REGEX_TO_FIND_AUTHOR_NAME soup).

Definition load_10_researchers (E : env) (soup output_dir : string) : M unit :=
  dispatch E (profile_links_of soup) output_dir.

(** ** Paginator

    [range(n)] runs [Z.to_nat n] times; the loops return the link they end
    with. *)

Fixpoint load_loop (E : env) (count : nat) (i : Z) (url output_dir : string)
  : M string :=
  match count with
  | O => ret url
  | S count' =>
      print ("Currently scraping page number: " +:+ pretty (i + 1)) ;;;
      content <- http_get E LoadPage url ;;
      let soup := soup_str E content in
      load_10_researchers E soup output_dir ;;;
      url <- lift (next_page soup) ;;
      load_loop E count' (i + 1) url output_dir
  end.

Definition load_n_pages (E : env) (url : string) (n : Z) (output_dir : string)
  : M unit :=
  load_loop E (Z.to_nat n) 0 url output_dir ;;; ret tt.

Fixpoint skip_loop (E : env) (count : nat) (i : Z) (url : string) : M string :=
  match count with
  | O => ret url
  | S count' =>
      print ("Currently skipping page number: " +:+ pretty (i + 1)) ;;;
      content <- http_get E SkipPage url ;;
      let soup := soup_str E content in
      url <- lift (next_page soup) ;;
      skip_loop E count' (i + 1) url
  end.

Definition skip_n_pages (E : env) (url : string) (n k : Z) (output_dir : string)
  : M unit :=
  url <- skip_loop E (Z.to_nat n) 0 url ;;
  load_n_pages E url k output_dir.

(** ** Entry point *)

Definition is_print (e : event) : bool :=
  match e with
  | Print _ => true
  | _ => false
  end.

(** [with HiddenPrints(): body].  The standard output is swapped for the
    null device while the body runs and put back when it ends, also when it
    ends by an exception: what the body prints is not part of the output. *)
Definition HiddenPrints {A} (body : M A) : M A :=
  fun w =>
    let (r, w') := body w in
    (r, {| fs := fs w';
           trace := trace w
                    ++ List.filter (fun e => negb (is_print e))
                         (skipn (length (trace w)) (trace w')) |}).

(** The two branches of [main] run the same statement: [if not skip] holds
    for a missing [--skip] and for 0.  In the script [args.skip], which the
    verbose branch reads, is the [skip] argument. *)
Definition run_pages (E : env) (label_url : string) (pages : Z)
    (output_dir : string) (skip : option Z) : M unit :=
  match skip with
  | None => load_n_pages E label_url pages output_dir
  | Some n =>
      if n =? 0 then load_n_pages E label_url pages output_dir
      else skip_n_pages E label_url n pages output_dir
  end.

Definition main (E : env) (label_url : string) (pages : Z)
    (output_dir : string) (skip : option Z) (verbose : bool) : M unit :=
  if verbose then run_pages E label_url pages output_dir skip
  else HiddenPrints (run_pages E label_url pages output_dir skip).

(** * Notions used in the statements *)

(** [sub] occurs in [s] at index [i]. *)
Definition occurs_at (sub s : string) (i : nat) : Prop :=
  exists pre post, s = pre +:+ sub +:+ post /\ String.length pre = i.

(** [s] is [pre], then its first occurrence of [sub], then [post]. *)
Definition first_occurrence (sub s pre post : string) : Prop :=
  s = pre +:+ sub +:+ post /\
  forall j, (j < String.length pre)%nat -> ~ occurs_at sub s j.

(** A series whose counts are all numbers, with any keys. *)
Definition int_series (kvs : list (pyval * Z)) : pydict :=
  map (fun kv => (fst kv, VInt (snd kv))) kvs.

Definition counts (kvs : list (pyval * Z)) : list Z := map snd kvs.

Definition zsum (l : list Z) : Z := fold_right Z.add 0 l.

(** The character [c] occurs in [s]; no character of [t] occurs in [old]. *)
Fixpoint occurs (c : ascii) (s : string) : bool :=
  match s with
  | "" => false
  | String a s' => Ascii.eqb a c || occurs c s'
  end.

Fixpoint avoids (old t : string) : bool :=
  match t with
  | "" => true
  | String c t' => negb (occurs c old) && avoids old t'
  end.

(** The two escape sequences, decoded to [=] and [&]. *)
Definition decode (s : string) : string :=
  PyStr.replace "\x26" "&" (PyStr.replace "\x3d" "=" s).

Definition has_after (r : string) : bool := PyStr.contains "after" r.

(** The matches of the next-page pattern in a page. *)
Definition next_matches (soup : string) : list string :=
  Re.findall REGEX_TO_FIND_NEXT_PAGE soup.

(** [m] only adds to the trace, and what it adds satisfies [P]. *)
Definition adds {A} (P : list event -> Prop) (m : M A) : Prop :=
  forall w, exists t, trace (snd (m w)) = (trace w ++ t)%list /\ P t.

(** What the Author Extractor may add to the trace after its lookup. *)
Definition author_event (e : event) : Prop :=
  match e with
  | Print _ | Get Picture _ => True
  | _ => False
  end.

Abbreviation quiet := (adds (Forall author_event)).

(** The page requests of a trace, by the place of the call, and the
    authors looked up. *)
Definition page_sites (t : list event) : list call_site :=
  flat_map (fun e => match e with
                     | Get SkipPage _ => [SkipPage]
                     | Get LoadPage _ => [LoadPage]
                     | _ => []
                     end) t.

Definition lookups (t : list event) : list string :=
  flat_map (fun e => match e with SearchAuthor id => [id] | _ => [] end) t.

(** The trace of a skip phase of [n] pages: a progress line and a request
    per page, and nothing else. *)
Inductive skip_phase : nat -> list event -> Prop :=
  | skip_phase_done : skip_phase O []
  | skip_phase_page n msg url t :
      skip_phase n t ->
      skip_phase (S n) (Print msg :: Get SkipPage url :: t).

(** The authors of a page were all dispatched: [t] has one lookup per
    profile link of the page, in the order of the page, and no page
    request. *)
Definition authors_processed (soup : string) (t : list event) : Prop :=
  page_sites t = [] /\
  Forall2 (fun link id => get_author_id link = Ok id)
          (profile_links_of soup) (lookups t).

(** The trace of a load phase of [n] pages. *)
Inductive load_phase (E : env) : nat -> list event -> Prop :=
  | load_phase_done : load_phase E O []
  | load_phase_page n msg url content ta t :
      requests_get E url = Some content ->
      authors_processed (soup_str E content) ta ->
      load_phase E n t ->
      load_phase E (S n) (Print msg :: Get LoadPage url :: (ta ++ t)%list).

(** Whether the picture step of an author ends in its catch-all handler. *)
Definition picture_download_fails (E : env) (author : profile)
    (cur_folder_path : string) : bool :=
  match url_picture author with
  | None => false
  | Some url =>
      match requests_get E url with
      | None => true
      | Some _ =>
          match open_fault E (cur_folder_path +:+ "\" +:+ PICTURE) with
          | Some _ => true
          | None => false
          end
      end
  end.

(** Whether the directory step succeeds: the directory is there already
    or can be made. *)
Definition folder_ok (E : env) (cur_folder_path : string) (w : world) : bool :=
  match fs w !! cur_folder_path with
  | Some _ => true
  | None => match mkdir_fault E cur_folder_path with
            | Some _ => false
            | None => true
            end
  end.

(** The link resolves to a profile with a display name. *)
Definition resolves (E : env) (link : string) (author_id : string)
    (author : profile) (author_name : string) : Prop :=
  get_author_id link = Ok author_id /\
  scholarly_fetch E author_id = Ok author /\
  name author = Some author_name.

(** A series with numbers for years and for counts. *)
Definition year_series (kvs : list (Z * Z)) : pydict :=
  map (fun kv => (VInt (fst kv), VInt (snd kv))) kvs.

(** The profile lacks the picture URL and nothing else: every other key
    is there. *)
Definition lacks_only_picture (author : profile) : Prop :=
  url_picture author = None
  /\ is_Some (affiliation author) /\ is_Some (interests author)
  /\ is_Some (citedby author) /\ is_Some (citedby5y author)
  /\ is_Some (hindex author) /\ is_Some (i10index author)
  /\ is_Some (coauthors author) /\ is_Some (cites_per_year author).

(** What is there is well formed: every co-author has a name, and the
    citation series is a non-empty series of numbers, with numbers for
    years. *)
Definition well_formed (author : profile) : Prop :=
  (forall cs, coauthors author = Some cs ->
              Forall (fun c => is_Some (co_name c)) cs)
  /\ (exists kvs, kvs <> [] /\ cites_per_year author = Some (year_series kvs)).

(** Both at once, in the form the text artifact needs. *)
Definition complete_but_picture (author : profile) : Prop :=
  url_picture author = None
  /\ is_Some (affiliation author) /\ is_Some (interests author)
  /\ is_Some (citedby author) /\ is_Some (citedby5y author)
  /\ is_Some (hindex author) /\ is_Some (i10index author)
  /\ (exists cs, coauthors author = Some cs
                 /\ Forall (fun c => is_Some (co_name c)) cs)
  /\ (exists kvs, kvs <> [] /\ cites_per_year author = Some (year_series kvs)).

(** The directory of the author holds no picture yet. *)
Definition no_picture_yet (cur_folder_path : string) (w : world) : Prop :=
  forall files, fs w !! cur_folder_path = Some files -> files !! PICTURE = None.

(** The statements of the spec about the persisted record, as they read. *)

(** After the extractor returns, the directory exists exactly when it
    returned success on a non-empty citation series. *)
Definition persisted_iff_success (E : env) (link out : string) (w : world)
  : Prop :=
  forall b w' author_id author author_name,
    resolves E link author_id author author_name ->
    create_profile E link out w = (Ok b, w') ->
    (is_Some (fs w' !! folder_path out author_name)
     <-> b = true /\ exists c, cites_per_year author = Some c /\ c <> []).

(** An author without a citation series leaves no directory. *)
Definition missing_series_leaves_nothing (E : env) (link out : string)
    (w : world) : Prop :=
  forall author_id author author_name,
    resolves E link author_id author author_name ->
    cites_per_year author = None ->
    exists w', create_profile E link out w = (Ok false, w')
               /\ fs w' !! folder_path out author_name = None.

(** An author whose profile lacks only the picture URL is saved, with the
    text artifact and no image artifact. *)
Definition missing_picture_succeeds (E : env) (link out : string) (w : world)
  : Prop :=
  forall author_id author author_name,
    resolves E link author_id author author_name ->
    lacks_only_picture author ->
    exists w' files,
      create_profile E link out w = (Ok true, w')
      /\ In (Print ("Author " +:+ author_name +:+ " has no picture")) (trace w')
      /\ fs w' !! folder_path out author_name = Some files
      /\ is_Some (files !! DATA)
      /\ files !! PICTURE = None.

(** No failure of an author leaves the page loop. *)
Definition page_never_fails (E : env) (soup out : string) (w : world) : Prop :=
  exists w', load_10_researchers E soup out w = (Ok tt, w').

(** The URLs of the page requests of a trace, in order. *)
Definition page_urls (t : list event) : list string :=
  flat_map (fun e => match e with
                     | Get SkipPage url | Get LoadPage url => [url]
                     | _ => []
                     end) t.

(** [walk E u us v]: the requests [us] start at [u], each page was
    delivered and its next-page link is the URL of the request after it,
    and the link of the last page is [v]. *)
Inductive walk (E : env) : string -> list string -> string -> Prop :=
  | walk_done u : walk E u [] u
  | walk_step u content u' us v :
      requests_get E u = Some content ->
      next_page (soup_str E content) = Ok u' ->
      walk E u' us v ->
      walk E u (u :: us) v.

(** [follows E u us]: the same, up to a last request of which nothing is
    known (the run stopped there). *)
Inductive follows (E : env) : string -> list string -> Prop :=
  | follows_done u : follows E u []
  | follows_stop u : follows E u [u]
  | follows_step u content u' us :
      requests_get E u = Some content ->
      next_page (soup_str E content) = Ok u' ->
      follows E u' us ->
      follows E u (u :: us).

(** The string of a literal pattern: the characters of its tokens. *)
Fixpoint literal (ts : list Re.tok) : option string :=
  match ts with
  | [] => Some ""
  | Re.Lit c :: ts' => option_map (String c) (literal ts')
  | Re.Dot :: _ => None
  end.

(** A co-author with a name. *)
Definition named (n : string) : coauthor := {| co_name := Some n |}.

(** The files of the author's directory after the picture step, when it
    does not fail. *)
Definition with_picture (E : env) (author : profile)
    (files : gmap string string) : gmap string string :=
  match url_picture author with
  | None => files
  | Some url =>
      match requests_get E url with
      | Some content => <[PICTURE := content]> files
      | None => files
      end
  end.

(** The files of a directory of the tree, none when it is not there. *)
Definition files_of (f : gmap string (gmap string string)) (path : string)
  : gmap string string :=
  match f !! path with
  | Some files => files
  | None => ∅
  end.

(** What makes the extraction of a resolved author succeed, with the
    statistics, the items of the text and its last line. *)
Definition succeeds (E : env) (author : profile) (cur : string) (w : world)
    (stats : Z * Z * Z) (L : list string) (line : string) : Prop :=
  folder_ok E cur w = true
  /\ picture_download_fails E author cur = false
  /\ statistics author = Ok stats
  /\ open_fault E (cur +:+ "\" +:+ DATA) = None
  /\ data_lines author (fst (fst stats)) (snd (fst stats)) (snd stats) = Ok L
  /\ last_line E author = Ok line.

(** * A small site, for the examples *)

Module Example.

Definition dq : string := PyStr.dq.

(** The anchor of an author on a listing page. *)
Definition anchor (postfix : string) : string :=
  "<h3 class=" +:+ dq +:+ "gs_ai_name" +:+ dq +:+ "><a href=" +:+ dq
  +:+ postfix +:+ dq +:+ ">An Author</a></h3>".

(** A navigation button; [token] is [before] or [after]. *)
Definition button (token start : string) : string :=
  "<button onclick=" +:+ dq
  +:+ "window.location='/citations?view_op\x3dsearch_authors\x26hl\x3den\x26"
  +:+ token +:+ "_author\x3dAbCd\x26astart\x3d" +:+ start +:+ "'" +:+ dq
  +:+ " type=" +:+ dq +:+ "button" +:+ dq +:+ "></button>".

Definition link_of (author_id : string) : string :=
  "citations?hl=en&user=" +:+ author_id.

(** A page with two authors and both buttons. *)
Definition mid_page : string :=
  anchor (link_of "alice") +:+ anchor (link_of "bob")
  +:+ button "before" "0" +:+ button "after" "10".

(** The last page: one author, no way forward. *)
Definition last_page : string :=
  anchor (link_of "bob") +:+ button "before" "0".

(** A page with an author unknown to the provider, then a known one. *)
Definition gone_page : string :=
  anchor (link_of "nobody") +:+ anchor (link_of "alice")
  +:+ button "after" "10".

(** A page whose first author makes the provider fail. *)
Definition down_page : string :=
  anchor (link_of "down") +:+ anchor (link_of "alice")
  +:+ button "after" "10".

Definition base (n : string) (pic : option string) (c : option pydict)
  : profile :=
  {| name := Some n;
     affiliation := Some "A University";
     interests := Some "['physics']";
     citedby := Some "120";
     citedby5y := Some "80";
     hindex := Some "5";
     i10index := Some "3";
     coauthors := Some [ {| co_name := Some "Bob B" |} ];
     cites_per_year := c;
     url_picture := pic |}.

Definition series : pydict :=
  [(VInt 2019, VInt 40); (VInt 2020, VInt 70); (VInt 2021, VInt 10)].

(** complete, with a picture that downloads *)
Definition alice : profile :=
  base "Alice A" (Some "https://pics.example/ok/alice.png") (Some series).
(** no picture field *)
Definition bob : profile := base "Bob B" None (Some series).
(** no citation series, and a picture that does not download *)
Definition carol : profile :=
  base "Carol C" (Some "https://pics.example/broken/carol.png") None.
(** complete, but the picture does not download *)
Definition dave : profile :=
  base "Dave D" (Some "https://pics.example/broken/dave.png") (Some series).
(** no citation series, no picture field *)
Definition frank : profile := base "Frank F" None None.
(** a count that is not a number, no picture field *)
Definition grace : profile :=
  base "Grace G" None (Some [(VInt 2019, VInt 40); (VInt 2020, VNone)]).

Definition fetch (author_id : string) : res profile :=
  if String.eqb author_id "alice" then Ok alice
  else if String.eqb author_id "bob" then Ok bob
  else if String.eqb author_id "carol" then Ok carol
  else if String.eqb author_id "dave" then Ok dave
  else if String.eqb author_id "frank" then Ok frank
  else if String.eqb author_id "grace" then Ok grace
  else if String.eqb author_id "nobody" then Raise FileNotFoundError
  else Raise ProviderError.

(** Pictures download from [ok/]; a listing URL that contains [last] gives
    the last page, [gone] and [down] give the pages of those names, any
    other gives [mid_page]. *)
Definition get (last url : string) : option string :=
  if PyStr.startswith "https://pics.example/ok/" url then Some "PNG"
  else if PyStr.startswith "https://pics.example/" url then None
  else if PyStr.contains last url then Some last_page
  else if PyStr.contains "gone" url then Some gone_page
  else if PyStr.contains "down" url then Some down_page
  else Some mid_page.

Definition site (last : string) : env :=
  {| requests_get := get last;
     soup_str := fun content => content;
     scholarly_fetch := fetch;
     mkdir_fault := fun path =>
       if PyStr.contains "readonly" path then Some EACCES else None;
     open_fault := fun _ => None;
     today_year := 2026 |}.

(** A site of two pages, and one whose pages never end. *)
Definition short_site : env := site "astart=10".
Definition endless_site : env := site "no such page".

Definition start_url : string :=
  "https://scholar.google.com/citations?view_op=search_authors&mauthors=label:physics".

Definition empty_world : world := {| fs := ∅; trace := [] |}.

Definition profile_link (author_id : string) : string :=
  GOOGLE_SCHOLAR_URL_PREFIX +:+ link_of author_id.

End Example.

(** Two more authors, on a copy of the two-page site. *)

Module Example2.

(** an empty citation series, no picture field *)
Definition erin : profile := Example.base "Erin E" None (Some []).

(** no affiliation, no picture field *)
Definition hank : profile :=
  {| name := Some "Hank H";
     affiliation := None;
     interests := Some "['physics']";
     citedby := Some "120";
     citedby5y := Some "80";
     hindex := Some "5";
     i10index := Some "3";
     coauthors := Some [];
     cites_per_year := Some Example.series;
     url_picture := None |}.

Definition fetch (author_id : string) : res profile :=
  if String.eqb author_id "erin" then Ok erin
  else if String.eqb author_id "hank" then Ok hank
  else Example.fetch author_id.

Definition site : env :=
  {| requests_get := requests_get Example.short_site;
     soup_str := soup_str Example.short_site;
     scholarly_fetch := fetch;
     mkdir_fault := mkdir_fault Example.short_site;
     open_fault := open_fault Example.short_site;
     today_year := today_year Example.short_site |}.

End Example2.

(** Profiles and a world for the authors without a picture. *)

Module Example3.

(** a co-author without a name, no picture field *)
Definition ivan : profile :=
  {| name := Some "Ivan I";
     affiliation := Some "A University";
     interests := Some "['physics']";
     citedby := Some "120";
     citedby5y := Some "80";
     hindex := Some "5";
     i10index := Some "3";
     coauthors := Some [ {| co_name := None |} ];
     cites_per_year := Some Example.series;
     url_picture := None |}.

(** a year that is not a number, no picture field *)
Definition judy : profile :=
  Example.base "Judy J" None (Some [(VNone, VInt 3)]).

Definition fetch (author_id : string) : res profile :=
  if String.eqb author_id "ivan" then Ok ivan
  else if String.eqb author_id "judy" then Ok judy
  else Example2.fetch author_id.

(** The two-page site, on a file system that refuses to open the files of
    the directories under [locked]. *)
Definition site : env :=
  {| requests_get := requests_get Example.short_site;
     soup_str := soup_str Example.short_site;
     scholarly_fetch := fetch;
     mkdir_fault := mkdir_fault Example.short_site;
     open_fault := fun path =>
       if PyStr.contains "locked" path then Some EACCES else None;
     today_year := today_year Example.short_site |}.

(** The directory of an author is there from an earlier run, with a
    picture. *)
Definition stale_world : world :=
  {| fs := {[ folder_path "out" "Bob B" := {[ PICTURE := "old picture" ]} ]};
     trace := [] |}.

End Example3.

(** * Properties *)

(** ** Strings *)

Module PyStrFacts.
Import PyStr.
#[local] Arguments String.append !_ _ / : simpl nomatch.

Lemma startswith_app (p t : string) : startswith p (p +:+ t) = true.
Proof.
  induction p as [|a p IH]; simpl; [reflexivity|].
  now rewrite Ascii.eqb_refl, IH.
Qed.

Lemma startswith_inv (p s : string) :
  startswith p s = true -> exists t, s = p +:+ t.
Proof.
  revert s; induction p as [|a p IH]; intros s H; simpl in *.
  - now exists s.
  - destruct s as [|b s]; [discriminate|].
    apply andb_prop in H as [Hab Hp].
    apply Ascii.eqb_eq in Hab; subst b.
    destruct (IH _ Hp) as [t ->]. now exists t.
Qed.

Lemma drop_app (a b : string) : drop (String.length a) (a +:+ b) = b.
Proof. induction a; simpl; auto. Qed.

Lemma drop_add (n m : nat) (s : string) : drop (n + m) s = drop m (drop n s).
Proof.
  revert s; induction n as [|n IH]; intros s; simpl; [reflexivity|].
  destruct s; simpl; [now destruct m|apply IH].
Qed.

Lemma app_assoc_s (a b c : string) : (a +:+ b) +:+ c = a +:+ (b +:+ c).
Proof. induction a; simpl; congruence. Qed.

Lemma length_app_s (a b : string) :
  String.length (a +:+ b) = (String.length a + String.length b)%nat.
Proof. induction a; simpl; congruence. Qed.

Lemma occurs_at_0 (sub s : string) :
  occurs_at sub s 0 <-> startswith sub s = true.
Proof.
  split.
  - intros (pre & post & -> & Hl). destruct pre; [|discriminate].
    simpl. apply startswith_app.
  - intros H. destruct (startswith_inv _ _ H) as [t ->].
    now exists "", t.
Qed.

Lemma occurs_at_S (sub : string) (c : ascii) (s : string) (i : nat) :
  occurs_at sub (String c s) (S i) <-> occurs_at sub s i.
Proof.
  split.
  - intros (pre & post & Heq & Hl). destruct pre as [|a pre]; [discriminate|].
    simpl in *. injection Heq as -> ->. injection Hl as Hl.
    now exists pre, post.
  - intros (pre & post & -> & Hl). exists (String c pre), post.
    simpl; auto.
Qed.

Lemma occurs_at_empty (sub : string) (i : nat) :
  occurs_at sub "" (S i) -> False.
Proof. intros (pre & post & Heq & Hl). destruct pre; discriminate. Qed.

Lemma find_eq (sub s : string) :
  find sub s =
  if startswith sub s then Some O
  else match s with
       | "" => None
       | String _ s' => option_map S (find sub s')
       end.
Proof. destruct s; reflexivity. Qed.

Lemma find_Some (sub s : string) (i : nat) :
  find sub s = Some i ->
  occurs_at sub s i /\ forall j, (j < i)%nat -> ~ occurs_at sub s j.
Proof.
  revert i; induction s as [|c s IH]; intros i; rewrite find_eq;
    destruct (startswith sub _) eqn:Hp; try discriminate.
  - intros [= <-]. split; [now apply occurs_at_0|lia].
  - intros [= <-]. split; [now apply occurs_at_0|lia].
  - destruct (find sub s) as [k|] eqn:Hf; simpl; [|discriminate].
    intros [= <-]. destruct (IH k eq_refl) as [Hk Hmin]. split.
    + now apply occurs_at_S.
    + intros [|j] Hj Hocc.
      * apply occurs_at_0 in Hocc. congruence.
      * apply occurs_at_S in Hocc. apply (Hmin j); [lia|assumption].
Qed.

Lemma find_None (sub s : string) :
  find sub s = None -> forall i, ~ occurs_at sub s i.
Proof.
  induction s as [|c s IH]; rewrite find_eq;
    destruct (startswith sub _) eqn:Hp; try discriminate.
  - intros _ [|i] Hocc; [apply occurs_at_0 in Hocc; congruence|].
    now apply occurs_at_empty in Hocc.
  - destruct (find sub s) as [k|] eqn:Hf; simpl; [discriminate|].
    intros _ [|i] Hocc; [apply occurs_at_0 in Hocc; congruence|].
    apply occurs_at_S in Hocc. now apply (IH eq_refl i).
Qed.

Lemma find_first (sub s : string) (i : nat) :
  occurs_at sub s i -> (forall j, (j < i)%nat -> ~ occurs_at sub s j) ->
  find sub s = Some i.
Proof.
  intros Hocc Hmin. destruct (find sub s) as [k|] eqn:Hf.
  - destruct (find_Some _ _ _ Hf) as [Hk Hkmin].
    destruct (Nat.lt_trichotomy k i) as [Hlt|[->|Hgt]]; [|reflexivity|].
    + now destruct (Hmin k Hlt).
    + now destruct (Hkmin i Hgt).
  - now destruct (find_None _ _ Hf i).
Qed.

Lemma contains_true (sub s : string) :
  contains sub s = true <-> exists i, occurs_at sub s i.
Proof.
  unfold contains. destruct (find sub s) as [k|] eqn:Hf.
  - split; [intros _|reflexivity]. exists k. now apply find_Some.
  - split; [discriminate|]. intros [i Hi]. now destruct (find_None _ _ Hf i).
Qed.

Lemma contains_length (sub s : string) :
  contains sub s = true -> (String.length sub <= String.length s)%nat.
Proof.
  intros H. apply contains_true in H as (i & pre & post & -> & _).
  rewrite !length_app_s. lia.
Qed.

(** *** Replacing next to characters that are in no occurrence *)

Lemma avoids_tail (a : ascii) (old t : string) :
  avoids (String a old) t = true -> avoids old t = true.
Proof.
  induction t as [|c t IH]; simpl; [reflexivity|].
  intros H. apply andb_prop in H as [Hc Ht]. rewrite (IH Ht), andb_true_r.
  apply negb_true_iff in Hc. apply orb_false_elim in Hc as [_ ->]. reflexivity.
Qed.

Lemma startswith_app_inv (old s t : string) :
  startswith old (s +:+ t) = true -> avoids old t = true ->
  startswith old s = true.
Proof.
  revert old; induction s as [|c s IH]; intros old H Ht.
  - destruct old as [|a old]; [reflexivity|]. simpl in H.
    destruct t as [|b t]; [discriminate|]. simpl in H, Ht.
    apply andb_prop in H as [Hab _]. rewrite Hab in Ht. discriminate.
  - destruct old as [|a old]; [reflexivity|]. simpl in *.
    apply andb_prop in H as [-> H]. simpl.
    apply IH; [exact H|now apply avoids_tail in Ht].
Qed.

Lemma startswith_app_l (old s t : string) :
  startswith old s = true -> startswith old (s +:+ t) = true.
Proof.
  intros H. destruct (startswith_inv _ _ H) as [r ->].
  rewrite app_assoc_s. apply startswith_app.
Qed.

Lemma startswith_length (old s : string) :
  startswith old s = true -> (String.length old <= String.length s)%nat.
Proof.
  intros H. destruct (startswith_inv _ _ H) as [r ->].
  rewrite length_app_s. lia.
Qed.

Lemma replace_go_avoided (a : ascii) (old new t : string) :
  avoids (String a old) t = true -> replace_go (String a old) new 0 t = t.
Proof.
  induction t as [|c t IH]; [reflexivity|]. intros H.
  simpl in H. apply andb_prop in H as [Hc Ht].
  apply negb_true_iff in Hc. apply orb_false_elim in Hc as [Hac _].
  cbn [replace_go startswith]. rewrite Hac. simpl. now rewrite IH.
Qed.

Lemma replace_go_app (a : ascii) (old new t : string) :
  avoids (String a old) t = true ->
  forall (m : string) (k : nat),
    (k <= String.length m)%nat ->
    replace_go (String a old) new k (m +:+ t)
    = replace_go (String a old) new k m +:+ t.
Proof.
  intros Ht. induction m as [|c m IH]; intros k Hk.
  - simpl in Hk. replace k with O by lia. simpl.
    now apply replace_go_avoided.
  - destruct k as [|k].
    + change (String c m +:+ t) with (String c (m +:+ t)).
      cbn [replace_go].
      destruct (startswith (String a old) (String c (m +:+ t))) eqn:Hs.
      * pose proof (startswith_app_inv _ (String c m) t Hs Ht) as Hs'.
        rewrite Hs'. pose proof (startswith_length _ _ Hs') as Hl.
        rewrite IH by (simpl in *; lia). now rewrite app_assoc_s.
      * destruct (startswith (String a old) (String c m)) eqn:Hs'.
        -- apply startswith_app_l with (t := t) in Hs'.
           change (String c m +:+ t) with (String c (m +:+ t)) in Hs'.
           congruence.
        -- rewrite IH by lia. reflexivity.
    + simpl. apply IH. simpl in Hk. lia.
Qed.

Lemma replace_wrapped (a : ascii) (old new : string) (c : ascii) (m t : string) :
  avoids (String a old) (String c t) = true ->
  replace (String a old) new (String c (m +:+ t))
  = String c (replace (String a old) new m +:+ t).
Proof.
  intros H. simpl in H. apply andb_prop in H as [Hc Ht].
  apply negb_true_iff in Hc. apply orb_false_elim in Hc as [Hac _].
  unfold replace. cbn [replace_go startswith]. rewrite Hac. simpl.
  f_equal. apply replace_go_app; [exact Ht|lia].
Qed.

Lemma take_app (m t : string) : take (String.length m) (m +:+ t) = m.
Proof. induction m as [|c m IH]; simpl; [now destruct t|now rewrite IH]. Qed.

Lemma slice_wrapped (c : ascii) (m t : string) :
  String.length t = 3%nat -> slice_1_m3 (String c (m +:+ t)) = m.
Proof.
  intros Ht. unfold slice_1_m3. simpl. rewrite length_app_s, Ht.
  match goal with
  | |- take ?n _ = _ => replace n with (String.length m) by lia
  end.
  apply take_app.
Qed.

End PyStrFacts.

(** ** Citation Aggregator *)

Lemma values_int_series (kvs : list (pyval * Z)) :
  values (int_series kvs) = map VInt (counts kvs).
Proof.
  unfold values, int_series, counts. rewrite !map_map. reflexivity.
Qed.

Lemma zsum_app (a b : list Z) : zsum (a ++ b) = zsum a + zsum b.
Proof. induction a as [|x a IH]; simpl; [reflexivity|]. rewrite IH. lia. Qed.

(** The counting loop adds the next [10 - i] values to [total]. *)
Lemma first_10_loop_sum (zs : list Z) (total i : Z) :
  0 <= i < 10 ->
  first_10_loop (map VInt zs) total i
  = Ok (total + zsum (take (Z.to_nat (10 - i)) zs)).
Proof.
  revert total i; induction zs as [|z zs IH]; intros total i Hi; simpl.
  - rewrite take_nil. simpl. f_equal. lia.
  - replace (Z.to_nat (10 - i)) with (S (Z.to_nat (10 - (i + 1)))) by lia.
    simpl. destruct (i + 1 >=? 10) eqn:Hge.
    + replace (Z.to_nat (10 - (i + 1))) with O by lia.
      rewrite take_0. simpl. f_equal. lia.
    + rewrite IH by lia. f_equal. lia.
Qed.

(** Once the threshold is reached the second loop is the first one. *)
Lemma since_n_loop_reached (zs : list Z) (n check total i : Z) :
  n <= check -> 0 <= i < 10 ->
  since_n_loop (map VInt zs) n check total i
  = Ok (total + zsum (take (Z.to_nat (10 - i)) zs)).
Proof.
  intros Hn. revert total i; induction zs as [|z zs IH]; intros total i Hi; simpl.
  - rewrite take_nil. simpl. f_equal. lia.
  - replace (check >=? n) with true by lia.
    replace (Z.to_nat (10 - i)) with (S (Z.to_nat (10 - (i + 1)))) by lia.
    simpl. destruct (i + 1 >=? 10) eqn:Hge.
    + replace (Z.to_nat (10 - (i + 1))) with O by lia.
      rewrite take_0. simpl. f_equal. lia.
    + rewrite IH by lia. f_equal. lia.
Qed.

Lemma since_n_loop_first (zs : list Z) (n check : Z) (j : nat) :
  (j <= length zs)%nat ->
  (forall i, (i < j)%nat -> check + zsum (take i zs) < n) ->
  n <= check + zsum (take j zs) ->
  since_n_loop (map VInt zs) n check 0 0 = Ok (zsum (take 10 (drop j zs))).
Proof.
  revert check j; induction zs as [|z zs IH]; intros check j Hj Hlt Hge.
  - simpl in Hj. replace j with O by lia. reflexivity.
  - destruct j as [|j].
    + simpl in Hge. rewrite since_n_loop_reached by lia. reflexivity.
    + pose proof (Hlt O ltac:(lia)) as H0. simpl in H0.
      simpl. replace (check >=? n) with false by lia.
      apply IH.
      * simpl in Hj. lia.
      * intros i Hi. specialize (Hlt (S i) ltac:(lia)). simpl in Hlt. lia.
      * simpl in Hge. lia.
Qed.

Lemma since_n_loop_never (zs : list Z) (n check : Z) :
  (forall i, (i <= length zs)%nat -> check + zsum (take i zs) < n) ->
  since_n_loop (map VInt zs) n check 0 0 = Ok 0.
Proof.
  revert check; induction zs as [|z zs IH]; intros check Hlt; [reflexivity|].
  pose proof (Hlt O ltac:(lia)) as H0. simpl in H0.
  simpl. replace (check >=? n) with false by lia.
  apply IH. intros i Hi. specialize (Hlt (S i) ltac:(simpl; lia)).
  simpl in Hlt. lia.
Qed.

(** C7. The first-ten-years total of a series of numbers is the sum of its
    first ten counts in the order of the series: it does not depend on the
    counts after the tenth, and for a series of fewer than ten entries it
    is the sum of all the counts. *)
Theorem first_10_years_sum (kvs : list (pyval * Z)) :
  get_num_of_first_10_years_citations (int_series kvs)
  = Ok (zsum (take 10 (counts kvs)))
  /\ (forall kvs', take 10 (counts kvs') = take 10 (counts kvs) ->
        get_num_of_first_10_years_citations (int_series kvs')
        = get_num_of_first_10_years_citations (int_series kvs))
  /\ ((length kvs < 10)%nat ->
        get_num_of_first_10_years_citations (int_series kvs)
        = Ok (zsum (counts kvs))).
Proof.
  assert (Hsum : forall l, get_num_of_first_10_years_citations (int_series l)
                           = Ok (zsum (take 10 (counts l)))).
  { intros l. unfold get_num_of_first_10_years_citations.
    rewrite values_int_series, first_10_loop_sum by lia. reflexivity. }
  split; [apply Hsum|split].
  - intros kvs' Heq. rewrite !Hsum, Heq. reflexivity.
  - intros Hlen. rewrite Hsum, take_ge; [reflexivity|].
    unfold counts. rewrite length_map. lia.
Qed.

Lemma first_10_years_sum_witness :
  get_num_of_first_10_years_citations
    (int_series [(VInt 2019, 4); (VInt 2020, 6); (VInt 2021, 1)]) = Ok 11.
Proof.
  apply (proj2 (proj2 (first_10_years_sum
           [(VInt 2019, 4); (VInt 2020, 6); (VInt 2021, 1)]))).
  simpl. lia.
Defined.

(** C3. The total after a threshold scans the series in order with a
    running sum of the counts read so far.  At the first prefix (of [j]
    counts, the last of which made the running sum reach the threshold)
    whose sum is at least the threshold, the function returns the sum of
    the next counts, at most ten of them, the [j] counts of the prefix
    excluded.  When no prefix of the series reaches the threshold it
    returns 0. *)
Theorem since_n_citations_sum (kvs : list (pyval * Z)) (n : Z) :
  (forall j : nat,
      (j <= length (counts kvs))%nat ->
      (forall i : nat, (i < j)%nat -> zsum (take i (counts kvs)) < n) ->
      n <= zsum (take j (counts kvs)) ->
      get_num_of_citations_since_n_citations (int_series kvs) n
      = Ok (zsum (take 10 (drop j (counts kvs)))))
  /\ ((forall i : nat, (i <= length (counts kvs))%nat ->
                       zsum (take i (counts kvs)) < n) ->
      get_num_of_citations_since_n_citations (int_series kvs) n = Ok 0).
Proof.
  unfold get_num_of_citations_since_n_citations.
  rewrite values_int_series. split.
  - intros j Hj Hlt Hge. apply since_n_loop_first with (j := j); auto.
  - intros Hlt. apply since_n_loop_never. intros i Hi.
    specialize (Hlt i Hi). lia.
Qed.

Lemma since_n_citations_sum_witness :
  get_num_of_citations_since_n_citations
    (int_series [(VInt 2001, 50); (VInt 2002, 60); (VInt 2003, 20);
                 (VInt 2004, 20); (VInt 2005, 20)]) 100 = Ok 60
  /\ get_num_of_citations_since_n_citations
       (int_series [(VInt 2001, 50); (VInt 2002, 30)]) 100 = Ok 0.
Proof.
  split.
  - apply (proj1 (since_n_citations_sum
             [(VInt 2001, 50); (VInt 2002, 60); (VInt 2003, 20);
              (VInt 2004, 20); (VInt 2005, 20)] 100) 2%nat).
    + simpl. lia.
    + intros [|[|i]] Hi; simpl; lia.
    + simpl. lia.
  - apply (proj2 (since_n_citations_sum [(VInt 2001, 50); (VInt 2002, 30)] 100)).
    intros [|[|[|i]]] Hi; simpl in *; lia.
Defined.

(** ** The author id *)

Section AuthorId.
Import PyStr PyStrFacts.

(** C10. [get_author_id] is partial.  On a link that contains the marker
    it returns what follows the first occurrence of the marker; on a link
    that does not contain it, it raises [ValueError]; and it returns only
    on links that contain the marker. *)
Theorem get_author_id_partial :
  (forall link pre post,
      first_occurrence "user=" link pre post -> get_author_id link = Ok post)
  /\ (forall link,
        contains "user=" link = true ->
        exists pre post,
          first_occurrence "user=" link pre post /\ get_author_id link = Ok post)
  /\ (forall link,
        contains "user=" link = false -> get_author_id link = Raise ValueError)
  /\ (forall link id,
        get_author_id link = Ok id -> contains "user=" link = true).
Proof.
  assert (Hfirst : forall link pre post,
             first_occurrence "user=" link pre post ->
             get_author_id link = Ok post).
  { intros link pre post [Heq Hmin].
    assert (Hf : find "user=" link = Some (String.length pre)).
    { apply find_first; [now exists pre, post|exact Hmin]. }
    unfold get_author_id, index. rewrite Hf. simpl. f_equal.
    rewrite drop_add, Heq, drop_app.
    apply (drop_app "user=" post). }
  split; [exact Hfirst|split; [|split]].
  - intros link Hc. unfold contains in Hc.
    destruct (find "user=" link) as [k|] eqn:Hf; [|discriminate].
    destruct (find_Some _ _ _ Hf) as [(pre & post & Heq & Hl) Hmin].
    exists pre, post.
    assert (Hfo : first_occurrence "user=" link pre post).
    { split; [exact Heq|]. intros j Hj. apply Hmin. lia. }
    split; [exact Hfo|exact (Hfirst link pre post Hfo)].
  - intros link Hc. unfold contains in Hc. unfold get_author_id, index.
    destruct (find "user=" link); [discriminate|reflexivity].
  - intros link id H. unfold get_author_id, index in H. unfold contains.
    destruct (find "user=" link); [reflexivity|discriminate].
Qed.

End AuthorId.

Lemma get_author_id_partial_witness :
  get_author_id "https://scholar.google.com/citations?hl=en&user=abc123"
  = Ok "abc123"
  /\ get_author_id "https://scholar.google.com/citations?hl=en"
     = Raise ValueError.
Proof.
  split.
  - apply (proj1 get_author_id_partial
             "https://scholar.google.com/citations?hl=en&user=abc123"
             "https://scholar.google.com/citations?hl=en&" "abc123").
    split; [reflexivity|]. intros j Hj.
    apply (proj2 (PyStrFacts.find_Some "user="
             "https://scholar.google.com/citations?hl=en&user=abc123"
             43%nat eq_refl)).
    exact Hj.
  - apply (proj1 (proj2 (proj2 get_author_id_partial))). reflexivity.
Defined.

(** ** The link to the next page *)

Lemma select_after_none (result : list string) (acc : string) :
  Forall (fun r => has_after r = false) result -> select_after result acc = acc.
Proof.
  revert acc; induction result as [|r rest IH]; intros acc H; [reflexivity|].
  inversion H as [|? ? Hr Hrest]; subst. simpl.
  unfold has_after in Hr. rewrite Hr. now apply IH.
Qed.

Lemma select_after_last (l1 l2 : list string) (r acc : string) :
  has_after r = true -> Forall (fun r => has_after r = false) l2 ->
  select_after (l1 ++ r :: l2) acc = r.
Proof.
  intros Hr Hl2. revert acc; induction l1 as [|x l1 IH]; intros acc; simpl.
  - unfold has_after in Hr. rewrite Hr. now apply select_after_none.
  - apply IH.
Qed.

(** Either no match has the token, or there is a last one that has it. *)
Lemma last_after_dec (result : list string) :
  Forall (fun r => has_after r = false) result
  \/ exists l1 r l2, result = (l1 ++ r :: l2)%list /\ has_after r = true
                     /\ Forall (fun r => has_after r = false) l2.
Proof.
  induction result as [|x rest [IH|(l1 & r & l2 & -> & Hr & Hl2)]].
  - left; constructor.
  - destruct (has_after x) eqn:Hx.
    + right. exists [], x, rest. auto.
    + left. now constructor.
  - right. exists (x :: l1), r, l2. auto.
Qed.

Lemma has_after_nonempty (r : string) : has_after r = true -> r <> "".
Proof. intros H ->. discriminate. Qed.

(** C4. Next-page resolution takes, among the matches of the next-page
    pattern, the (last) one that contains the token [after], strips its
    wrapper (its first character and its last three), decodes the two
    escape sequences to [=] and [&] and puts the navigation host in front.
    When no match contains the token it raises [ValueError], and it raises
    nothing else; it never returns an empty link.  Stripping and decoding
    can be done in either order when the wrapper characters are not those
    of an escape sequence, as with the quotes and the space of a page. *)
Theorem next_page_resolution (soup : string) :
  (Forall (fun r => has_after r = false) (next_matches soup) ->
   next_page soup = Raise ValueError)
  /\ (forall l1 r l2,
        next_matches soup = (l1 ++ r :: l2)%list -> has_after r = true ->
        Forall (fun r => has_after r = false) l2 ->
        next_page soup
        = Ok ("https://scholar.google.co.il" +:+ decode (PyStr.slice_1_m3 r)))
  /\ (forall e, next_page soup = Raise e ->
        e = ValueError /\ Forall (fun r => has_after r = false) (next_matches soup))
  /\ (forall url, next_page soup = Ok url ->
        url <> "" /\
        exists r, In r (next_matches soup) /\ has_after r = true /\
          url = "https://scholar.google.co.il" +:+ decode (PyStr.slice_1_m3 r))
  /\ (forall (c : ascii) (m t : string),
        String.length t = 3%nat ->
        avoids "\x3d" (String c t) = true ->
        avoids "\x26" (String c t) = true ->
        decode (PyStr.slice_1_m3 (String c (m +:+ t)))
        = PyStr.slice_1_m3 (decode (String c (m +:+ t)))).
Proof.
  assert (Hnone : Forall (fun r => has_after r = false) (next_matches soup) ->
                  next_page soup = Raise ValueError).
  { intros H. unfold next_page. fold (next_matches soup).
    rewrite select_after_none by exact H. reflexivity. }
  assert (Hsome : forall l1 r l2,
             next_matches soup = (l1 ++ r :: l2)%list -> has_after r = true ->
             Forall (fun r => has_after r = false) l2 ->
             next_page soup
             = Ok ("https://scholar.google.co.il" +:+ decode (PyStr.slice_1_m3 r))).
  { intros l1 r l2 Heq Hr Hl2. unfold next_page. fold (next_matches soup).
    rewrite Heq, select_after_last by assumption.
    destruct (String.eqb r "") eqn:He.
    - apply String.eqb_eq in He. now destruct (has_after_nonempty r Hr).
    - reflexivity. }
  split; [exact Hnone|split; [exact Hsome|split; [|split]]].
  - intros e He.
    destruct (last_after_dec (next_matches soup))
      as [H|(l1 & r & l2 & Heq & Hr & Hl2)].
    + rewrite (Hnone H) in He. injection He as <-. auto.
    + rewrite (Hsome _ _ _ Heq Hr Hl2) in He. discriminate.
  - intros url Hu.
    destruct (last_after_dec (next_matches soup))
      as [H|(l1 & r & l2 & Heq & Hr & Hl2)].
    + rewrite (Hnone H) in Hu. discriminate.
    + rewrite (Hsome _ _ _ Heq Hr Hl2) in Hu. injection Hu as <-. split.
      * discriminate.
      * exists r. rewrite Heq. split; [|auto].
        apply in_or_app. right. now left.
  - intros c m t Hlen H3d H26. unfold decode.
    rewrite (PyStrFacts.replace_wrapped _ _ _ c m t H3d).
    rewrite (PyStrFacts.replace_wrapped _ _ _ c _ t H26).
    now rewrite !PyStrFacts.slice_wrapped.
Qed.

(** ** The steps of the Author Extractor *)

Section AuthorSteps.
Context (E : env).

Ltac run :=
  unfold new_folder, save_picture, derived_statistics, save_data, http_get,
    search_and_fill, os_mkdir, open_w, file_write, rmtree, catch, bind, lift,
    ret, raise, print, emit, set_fs, get_fs;
  cbn beta iota.

Lemma write_new_file (f : gmap string (gmap string string))
    (files : gmap string string) (dir file pre data : string) :
  alter (alter (fun old => old +:+ data) file) dir
        (<[dir := <[file := pre]> files]> f)
  = <[dir := <[file := pre +:+ data]> files]> f.
Proof.
  rewrite alter_insert_eq. f_equal. now rewrite alter_insert_eq.
Qed.

Lemma new_folder_eq (path : string) (w : world) :
  new_folder E path w =
  match fs w !! path with
  | Some _ =>
      (Ok true, log (Print ("Researcher " +:+ path +:+ " already exists")) w)
  | None =>
      match mkdir_fault E path with
      | Some _ =>
          (Ok false,
           log (Print ("The program was not able to save the Researcher  "
                       +:+ path)) w)
      | None =>
          (Ok true,
           log (Print ("Researcher " +:+ path +:+ " Created "))
               (with_fs (<[path := ∅]> (fs w)) w))
      end
  end.
Proof.
  run. destruct (fs w !! path); [reflexivity|].
  destruct (mkdir_fault E path) as [[]|]; reflexivity.
Qed.

Lemma save_picture_eq (author : profile) (author_name link cur : string)
    (w : world) :
  save_picture E author author_name link cur w =
  match url_picture author with
  | None => (Ok true, log (Print ("Author " +:+ author_name +:+ " has no picture")) w)
  | Some url =>
      let w1 := log (Get Picture url) w in
      let failed :=
        (Ok false,
         log (Print ("Failure while downloading data for author: " +:+ link)) w1) in
      match requests_get E url with
      | None => failed
      | Some content =>
          match fs w !! cur with
          | None => failed
          | Some files =>
              match open_fault E (cur +:+ "\" +:+ PICTURE) with
              | Some _ => failed
              | None =>
                  (Ok true,
                   with_fs (<[cur := <[PICTURE := content]> files]> (fs w)) w1)
              end
          end
      end
  end.
Proof.
  run. destruct (url_picture author) as [url|]; [|reflexivity].
  cbn. destruct (requests_get E url) as [content|]; [|reflexivity].
  cbn. destruct (fs w !! cur) as [files|]; [|reflexivity].
  destruct (open_fault E _) as [[]|]; try reflexivity.
  cbn. unfold with_fs, log. cbn. now rewrite write_new_file.
Qed.

Lemma derived_statistics_eq (author : profile) (author_name cur : string)
    (w : world) :
  derived_statistics author author_name cur w =
  match statistics author with
  | Ok stats => (Ok (Some stats), w)
  | Raise _ =>
      let w1 := log (Print ("No citations data for current author "
                            +:+ author_name +:+ ", so he is deleted")) w in
      match fs w !! cur with
      | None => (Raise FileNotFoundError, w1)
      | Some _ => (Ok None, with_fs (delete cur (fs w)) w1)
      end
  end.
Proof.
  run. destruct (statistics author); [reflexivity|].
  cbn. destruct (fs w !! cur); reflexivity.
Qed.

Lemma save_data_eq (author : profile) (cur : string) (stats : Z * Z * Z)
    (w : world) :
  save_data E author cur stats w =
  match fs w !! cur with
  | None => (Raise FileNotFoundError, w)
  | Some files =>
      match open_fault E (cur +:+ "\" +:+ DATA) with
      | Some fault => (Raise (exn_of_fault fault), w)
      | None =>
          match data_lines author (fst (fst stats)) (snd (fst stats)) (snd stats) with
          | Raise e => (Raise e, with_fs (<[cur := <[DATA := ""]> files]> (fs w)) w)
          | Ok L =>
              match last_line E author with
              | Raise e =>
                  (Raise e,
                   with_fs (<[cur := <[DATA := String.concat "" L]> files]> (fs w)) w)
              | Ok line =>
                  (Ok true,
                   with_fs (<[cur := <[DATA := String.concat "" L +:+ line]>
                                       files]> (fs w)) w)
              end
          end
      end
  end.
Proof.
  destruct stats as [[ten t100] t500]. run.
  destruct (fs w !! cur) as [files|]; [|reflexivity].
  destruct (open_fault E _); [reflexivity|]. cbn.
  destruct (data_lines author ten t100 t500) as [L|]; [|reflexivity]. cbn.
  unfold with_fs at 1 2. cbn. rewrite write_new_file.
  destruct (last_line E author) as [line|]; [|reflexivity]. cbn.
  unfold with_fs. cbn. now rewrite write_new_file.
Qed.

End AuthorSteps.

(** ** The Author Extractor as a whole *)

Section AuthorExtractor.
Context (E : env).

Lemma create_profile_eq (link out : string) (w : world)
    (author_id : string) (author : profile) (author_name : string) :
  resolves E link author_id author author_name ->
  create_profile E link out w =
  let cur := folder_path out author_name in
  match new_folder E cur (log (SearchAuthor author_id) w) with
  | (Ok true, w1) =>
      match save_picture E author author_name link cur w1 with
      | (Ok true, w2) =>
          match derived_statistics author author_name cur w2 with
          | (Ok (Some stats), w3) => save_data E author cur stats w3
          | (Ok None, w3) => (Ok false, w3)
          | (Raise e, w3) => (Raise e, w3)
          end
      | (Ok false, w2) => (Ok false, w2)
      | (Raise e, w2) => (Raise e, w2)
      end
  | (Ok false, w1) => (Ok false, w1)
  | (Raise e, w1) => (Raise e, w1)
  end.
Proof.
  intros (Hid & Hfetch & Hname).
  unfold create_profile, save_profile, search_and_fill, bind, lift, emit, ret,
    getitem.
  rewrite Hid. cbn beta iota. rewrite Hfetch. cbn beta iota.
  rewrite Hname. cbn beta iota zeta.
  destruct (new_folder E _ _) as [[[|]|e] w1]; cbn; try reflexivity.
  destruct (save_picture E _ _ _ _ _) as [[[|]|e] w2]; cbn; try reflexivity.
  destruct (derived_statistics _ _ _ _) as [[[stats|]|e] w3]; reflexivity.
Qed.

(** A link that does not resolve makes [create_profile] raise. *)
Lemma create_profile_returns (link out : string) (w w' : world) (b : bool) :
  create_profile E link out w = (Ok b, w') ->
  exists author_id author author_name,
    resolves E link author_id author author_name.
Proof.
  unfold create_profile, save_profile, search_and_fill, bind, lift, emit, ret,
    resolves, getitem.
  intros H.
  destruct (get_author_id link) as [author_id|] eqn:Hid; [|discriminate H].
  cbn beta iota in H.
  destruct (scholarly_fetch E author_id) as [author|] eqn:Hf; [|discriminate H].
  cbn beta iota in H.
  destruct (name author) as [author_name|] eqn:Hn; [|discriminate H].
  now exists author_id, author, author_name.
Qed.

End AuthorExtractor.

Section AuthorOutcomes.
Context (E : env).

(** The directory tree after each step, whatever the trace. *)
Lemma fs_log (e : event) (w : world) : fs (log e w) = fs w.
Proof. reflexivity. Qed.

Lemma fs_with_fs (f : gmap string (gmap string string)) (w : world) :
  fs (with_fs f w) = f.
Proof. reflexivity. Qed.

Lemma statistics_missing (author : profile) :
  cites_per_year author = None -> statistics author = Raise KeyError.
Proof. intros H. unfold statistics. now rewrite H. Qed.

(** Symbolic execution of the steps: every [match] on a collaborator's
    answer or on the directory tree is split, and the lookups in the
    updated tree are computed. *)
Ltac fs_simpl :=
  cbn [fs trace log with_fs fst snd];
  rewrite ?lookup_insert_eq, ?lookup_delete_eq, ?delete_insert_eq.

Ltac folder_step cur :=
  rewrite new_folder_eq; fs_simpl;
  let Hcur := fresh "Hcur" in
  let Hmk := fresh "Hmk" in
  destruct (fs _ !! cur) as [?files|] eqn:Hcur;
    [|destruct (mkdir_fault _ cur) as [?fault|] eqn:Hmk];
  cbn beta iota.

Ltac picture_step :=
  rewrite save_picture_eq; fs_simpl;
  let Hurl := fresh "Hurl" in
  let Hget := fresh "Hget" in
  let Hopen := fresh "Hopen" in
  destruct (url_picture _) as [?url|] eqn:Hurl;
    [cbn zeta; destruct (requests_get _ _) as [?content|] eqn:Hget;
       [repeat match goal with
               | H : ?x = Some _ |- context [match ?x with _ => _ end] =>
                   rewrite H
               end;
        destruct (open_fault _ (_ +:+ "\" +:+ PICTURE)) as [?fault|] eqn:Hopen|]|];
  cbn beta iota.

Ltac statistics_step :=
  rewrite derived_statistics_eq; fs_simpl;
  let Hst := fresh "Hst" in
  destruct (statistics _) as [?stats|?e] eqn:Hst;
  cbn beta iota zeta; fs_simpl;
  repeat match goal with
         | H : ?x = Some _ |- context [match ?x with _ => _ end] => rewrite H
         end;
  cbn beta iota.

(** C5 (amended). When the profile lacks the citation series, or the
    derived statistics raise, and the picture step did not abort the author
    (the picture field is absent, or the picture was downloaded and
    written), the extractor returns failure and the directory of the author
    is deleted: it is not on disk afterwards, and nothing else changed. *)
Theorem missing_series_rolls_back (link out : string) (w : world)
    (author_id : string) (author : profile) (author_name : string) :
  resolves E link author_id author author_name ->
  (cites_per_year author = None \/ exists e, statistics author = Raise e) ->
  picture_download_fails E author (folder_path out author_name) = false ->
  exists w',
    create_profile E link out w = (Ok false, w')
    /\ fs w' = delete (folder_path out author_name) (fs w)
    /\ fs w' !! folder_path out author_name = None.
Proof.
  intros Hres Hstats Hpic.
  assert (Hraise : exists e, statistics author = Raise e).
  { destruct Hstats as [Hnone|H]; [|exact H].
    exists KeyError. now apply statistics_missing. }
  destruct Hraise as [e He].
  rewrite (create_profile_eq E link out w _ _ _ Hres). cbn zeta.
  set (cur := folder_path out author_name) in *.
  unfold picture_download_fails in Hpic.
  folder_step cur.
  - picture_step; try discriminate Hpic;
      (statistics_step; [congruence|]);
      (eexists; split; [reflexivity|]); fs_simpl; split; reflexivity.
  - eexists; split; [reflexivity|]. fs_simpl.
    rewrite delete_id by assumption. split; [reflexivity|assumption].
  - picture_step; try discriminate Hpic;
      (statistics_step; [congruence|]);
      (eexists; split; [reflexivity|]); fs_simpl; split; reflexivity.
Qed.

Ltac data_step :=
  rewrite save_data_eq; fs_simpl;
  repeat match goal with
         | H : ?x = Some _ |- context [match ?x with _ => _ end] => rewrite H
         end;
  let Hopen := fresh "Hopen_data" in
  let HL := fresh "HL" in
  let Hline := fresh "Hline" in
  destruct (open_fault _ (_ +:+ "\" +:+ DATA)) as [?fault|] eqn:Hopen;
    [|destruct (data_lines _ _ _ _) as [?L|?e] eqn:HL;
       [destruct (last_line _ _) as [?line|?e] eqn:Hline|]];
  cbn beta iota.

Lemma last_line_nonempty (author : profile) (line : string) :
  last_line E author = Ok line ->
  exists c, cites_per_year author = Some c /\ c <> [].
Proof.
  unfold last_line. destruct (cites_per_year author) as [c|]; [|discriminate].
  intros H. exists c. split; [reflexivity|]. intros ->. discriminate.
Qed.

(** C2 (amended). After the extractor returns: if it returned success, the
    directory of the author is on disk with the text artifact and the
    citation series is not empty; if it returned failure, the directory is
    on disk exactly when the directory step succeeded and the picture
    download failed, the case in which the directory is left as it is. *)
Theorem persisted_after_return (link out : string) (w w' : world) (b : bool) :
  create_profile E link out w = (Ok b, w') ->
  exists author_id author author_name,
    resolves E link author_id author author_name /\
    let cur := folder_path out author_name in
    (b = true ->
       (exists files, fs w' !! cur = Some files /\ is_Some (files !! DATA))
       /\ exists c, cites_per_year author = Some c /\ c <> [])
    /\ (b = false ->
          (is_Some (fs w' !! cur)
           <-> folder_ok E cur w = true
               /\ picture_download_fails E author cur = true)).
Proof.
  intros H.
  destruct (create_profile_returns E _ _ _ _ _ H)
    as (author_id & author & author_name & Hres).
  exists author_id, author, author_name. split; [exact Hres|].
  cbn zeta. revert H.
  rewrite (create_profile_eq E link out w _ _ _ Hres). cbn zeta.
  set (cur := folder_path out author_name) in *.
  unfold folder_ok, picture_download_fails.
  assert (Hno : forall P : Prop, is_Some (@None (gmap string string)) <-> false = true /\ P).
  { intros P. split; [intros [? ?]; discriminate|intros [? _]; discriminate]. }
  assert (Hno' : forall P : Prop, is_Some (@None (gmap string string)) <-> P /\ false = true).
  { intros P. split; [intros [? ?]; discriminate|intros [_ ?]; discriminate]. }
  assert (Hyes : forall d : gmap string string, is_Some (Some d) <-> true = true /\ true = true).
  { intros d. split; [auto|eauto]. }
  folder_step cur.
  - picture_step.
    + intros [= <- <-]. split; [discriminate|]. intros _. fs_simpl.
      rewrite Hcur. apply Hyes.
    + statistics_step.
      * data_step; intros Hret; try discriminate Hret; injection Hret as <- <-.
        split; [|discriminate]. intros _.
        fs_simpl. split; [|now apply last_line_nonempty with (line := line)].
        eexists. split; [reflexivity|]. rewrite lookup_insert_eq. eauto.
      * intros [= <- <-]. split; [discriminate|]. intros _. fs_simpl.
        apply Hno'.
    + intros [= <- <-]. split; [discriminate|]. intros _. fs_simpl.
      rewrite Hcur. apply Hyes.
    + statistics_step.
      * data_step; intros Hret; try discriminate Hret; injection Hret as <- <-.
        split; [|discriminate]. intros _.
        fs_simpl. split; [|now apply last_line_nonempty with (line := line)].
        eexists. split; [reflexivity|]. rewrite lookup_insert_eq. eauto.
      * intros [= <- <-]. split; [discriminate|]. intros _. fs_simpl.
        apply Hno'.
  - intros [= <- <-]. split; [discriminate|]. intros _. fs_simpl.
    rewrite Hcur. apply Hno.
  - picture_step.
    + intros [= <- <-]. split; [discriminate|]. intros _. fs_simpl.
      apply Hyes.
    + statistics_step.
      * data_step; intros Hret; try discriminate Hret; injection Hret as <- <-.
        split; [|discriminate]. intros _.
        fs_simpl. split; [|now apply last_line_nonempty with (line := line)].
        eexists. split; [reflexivity|]. rewrite lookup_insert_eq. eauto.
      * intros [= <- <-]. split; [discriminate|]. intros _. fs_simpl.
        apply Hno'.
    + intros [= <- <-]. split; [discriminate|]. intros _. fs_simpl.
      apply Hyes.
    + statistics_step.
      * data_step; intros Hret; try discriminate Hret; injection Hret as <- <-.
        split; [|discriminate]. intros _.
        fs_simpl. split; [|now apply last_line_nonempty with (line := line)].
        eexists. split; [reflexivity|]. rewrite lookup_insert_eq. eauto.
      * intros [= <- <-]. split; [discriminate|]. intros _. fs_simpl.
        apply Hno'.
Qed.

(** A profile that lacks only the picture goes through the statistics and
    the text artifact without an error. *)

Lemma values_year_series (kvs : list (Z * Z)) :
  values (year_series kvs) = map VInt (map snd kvs).
Proof. unfold values, year_series. rewrite !map_map. reflexivity. Qed.

Lemma since_n_loop_total (zs : list Z) (n check total i : Z) :
  exists z, since_n_loop (map VInt zs) n check total i = Ok z.
Proof.
  revert check total i; induction zs as [|z zs IH]; intros check total i; simpl.
  - eauto.
  - destruct (check >=? n); [|apply IH].
    destruct (i + 1 >=? 10); [eauto|apply IH].
Qed.

Lemma statistics_total (author : profile) (kvs : list (Z * Z)) :
  cites_per_year author = Some (year_series kvs) ->
  exists stats, statistics author = Ok stats.
Proof.
  intros Hc. unfold statistics. rewrite Hc. cbn [getitem res_bind].
  unfold get_num_of_first_10_years_citations,
    get_num_of_citations_since_n_citations.
  rewrite values_year_series, first_10_loop_sum by lia. cbn [res_bind].
  destruct (since_n_loop_total (map snd kvs) 100 0 0 0) as [a ->].
  destruct (since_n_loop_total (map snd kvs) 500 0 0 0) as [b ->].
  cbn [res_bind]. eauto.
Qed.

Lemma co_authors_loop_total (cs : list coauthor) (acc : string) :
  Forall (fun c => is_Some (co_name c)) cs ->
  exists s, co_authors_loop cs acc = Ok s.
Proof.
  intros H. revert acc; induction H as [|c cs [n Hn] _ IH]; intros acc; simpl.
  - eauto.
  - rewrite Hn. cbn [getitem res_bind]. apply IH.
Qed.

Lemma data_lines_total (author : profile) (author_name : string)
    (ten t100 t500 : Z) :
  name author = Some author_name -> complete_but_picture author ->
  exists L, data_lines author ten t100 t500 = Ok L.
Proof.
  intros Hn (_ & [a Ha] & [i Hi] & [c Hc] & [c5 Hc5] & [h Hh] & [i10 Hi10]
             & (cs & Hcs & Hnamed) & (kvs & _ & Hkvs)).
  unfold data_lines, get_co_authors_str.
  rewrite Hn, Ha, Hi, Hc, Hc5, Hh, Hi10, Hcs, Hkvs. cbn [getitem res_bind].
  destruct (co_authors_loop_total cs
              (" (" +:+ pretty (length cs) +:+ "):") Hnamed) as [s ->].
  cbn [res_bind]. eauto.
Qed.

Lemma last_year (kvs : list (Z * Z)) :
  kvs <> [] -> exists y, last (keys (year_series kvs)) = Some (VInt y).
Proof.
  induction kvs as [|kv kvs IH]; [congruence|]. intros _.
  destruct kvs as [|kv' kvs]; [now exists (fst kv)|].
  destruct IH as [y Hy]; [discriminate|]. exists y. exact Hy.
Qed.

Lemma last_line_total (author : profile) :
  complete_but_picture author -> exists line, last_line E author = Ok line.
Proof.
  intros (_ & _ & _ & _ & _ & _ & _ & _ & (kvs & Hne & Hkvs)).
  unfold last_line, last_item. rewrite Hkvs. cbn [getitem res_bind].
  destruct (last_year kvs Hne) as [y ->]. cbn [res_bind py_int]. eauto.
Qed.

Lemma complete_of_lacks (author : profile) :
  lacks_only_picture author -> well_formed author ->
  complete_but_picture author.
Proof.
  intros (Hurl & Ha & Hi & Hc & Hc5 & Hh & Hi10 & [cs Hcs] & _) [Hnamed Hkvs].
  repeat (split; [assumption|]). split; [|exact Hkvs].
  exists cs. split; [exact Hcs|now apply Hnamed].
Qed.

(** C6 (amended). An author whose profile lacks only the picture URL,
    whose co-authors all have names and whose citation series is a
    non-empty series of numbers with numbers for years: when the directory
    step succeeds, the directory holds no picture from before and the text
    file can be opened, the extractor logs that there is no picture, goes
    on and returns success, and the directory of the author holds the text
    artifact and no image artifact.  An author whose picture download fails
    otherwise (the request raises, or the image file cannot be opened): the
    extractor returns failure and the directory tree is as the directory
    step left it, so a directory that was made or found is still there. *)
Theorem picture_policy (link out : string) (w : world)
    (author_id : string) (author : profile) (author_name : string) :
  resolves E link author_id author author_name ->
  let cur := folder_path out author_name in
  (lacks_only_picture author -> well_formed author ->
   folder_ok E cur w = true -> no_picture_yet cur w ->
   open_fault E (cur +:+ "\" +:+ DATA) = None ->
   exists w' files,
     create_profile E link out w = (Ok true, w')
     /\ In (Print ("Author " +:+ author_name +:+ " has no picture")) (trace w')
     /\ fs w' !! cur = Some files
     /\ is_Some (files !! DATA)
     /\ files !! PICTURE = None)
  /\ (picture_download_fails E author cur = true ->
      exists w',
        create_profile E link out w = (Ok false, w')
        /\ fs w' = fs (snd (new_folder E cur w))
        /\ (folder_ok E cur w = true ->
            is_Some (fs w' !! cur)
            /\ In (Print ("Failure while downloading data for author: " +:+ link))
                  (trace w'))).
Proof.
  intros Hres cur. split.
  - intros Hlacks0 Hwf Hfolder Hnopic Hopen.
    pose proof (complete_of_lacks author Hlacks0 Hwf) as Hlacks.
    pose proof Hres as (_ & _ & Hname).
    pose proof Hlacks as (Hurl & _ & _ & _ & _ & _ & _ & _ & (kvs & _ & Hkvs)).
    destruct (statistics_total author kvs Hkvs) as [[[ten t100] t500] Hst].
    destruct (data_lines_total author author_name ten t100 t500 Hname Hlacks)
      as [L HL].
    destruct (last_line_total author Hlacks) as [line Hline].
    rewrite (create_profile_eq E link out w _ _ _ Hres). cbn zeta. fold cur.
    unfold folder_ok in Hfolder. unfold no_picture_yet in Hnopic.
    folder_step cur; try discriminate Hfolder;
      rewrite save_picture_eq, Hurl; cbn beta iota;
      rewrite derived_statistics_eq, Hst; cbn beta iota;
      rewrite save_data_eq; fs_simpl; rewrite ?Hcur, Hopen; cbn [fst snd];
      rewrite HL, Hline; cbn beta iota;
      eexists; eexists; (split; [reflexivity|]); fs_simpl.
    + split; [apply in_or_app; right; now left|].
      split; [reflexivity|]. rewrite ?lookup_insert_eq.
      split; [eauto|]. rewrite lookup_insert_ne by discriminate. eauto.
    + split; [apply in_or_app; right; now left|].
      split; [reflexivity|]. rewrite ?lookup_insert_eq.
      split; [eauto|]. rewrite lookup_insert_ne by discriminate.
      apply lookup_empty.
  - intros Hfails.
    rewrite (create_profile_eq E link out w _ _ _ Hres). cbn zeta. fold cur.
    unfold folder_ok, picture_download_fails in *.
    rewrite (new_folder_eq E cur w).
    folder_step cur; [picture_step; try discriminate Hfails| |
                      picture_step; try discriminate Hfails];
      (eexists; split; [reflexivity|]); fs_simpl;
      (split; [reflexivity|]); intros Hf; try discriminate Hf;
      rewrite ?Hcur; (split; [eauto|]); apply in_or_app; right; now left.
Qed.

End AuthorOutcomes.

(** ** The Author Extractor on the example site *)

Section AuthorExamples.
Import Example.

Lemma resolves_example (author_id : string) (author : profile)
    (author_name : string) :
  fetch author_id = Ok author -> name author = Some author_name ->
  get_author_id (profile_link author_id) = Ok author_id ->
  resolves short_site (profile_link author_id) author_id author author_name.
Proof. intros Hf Hn Hid. repeat split; assumption. Qed.

Lemma persisted_after_return_witness :
  exists author_id author author_name,
    resolves short_site (profile_link "alice") author_id author author_name /\
    let cur := folder_path "out" author_name in
    (true = true ->
       (exists files,
           fs (snd (create_profile short_site (profile_link "alice") "out"
                      empty_world)) !! cur = Some files
           /\ is_Some (files !! DATA))
       /\ exists c, cites_per_year author = Some c /\ c <> [])
    /\ (true = false ->
          (is_Some (fs (snd (create_profile short_site (profile_link "alice")
                               "out" empty_world)) !! cur)
           <-> folder_ok short_site cur empty_world = true
               /\ picture_download_fails short_site author cur = true)).
Proof.
  apply (persisted_after_return short_site (profile_link "alice") "out"
           empty_world
           (snd (create_profile short_site (profile_link "alice") "out"
                   empty_world))
           true).
  vm_compute. reflexivity.
Defined.

(** C2, as the spec states it, fails on an author whose picture does not
    download: the extractor returns failure and the directory stays. *)
Lemma persisted_iff_success_fails :
  ~ persisted_iff_success short_site (profile_link "dave") "out" empty_world.
Proof.
  intros H.
  specialize (H false
                (snd (create_profile short_site (profile_link "dave") "out"
                        empty_world))
                "dave" dave "Dave D").
  destruct H as [H _].
  - now apply resolves_example.
  - vm_compute. reflexivity.
  - destruct H as [Hb _]; [|discriminate Hb].
    vm_compute. eexists. reflexivity.
Qed.

Lemma missing_series_rolls_back_witness :
  exists w',
    create_profile short_site (profile_link "frank") "out" empty_world
    = (Ok false, w')
    /\ fs w' = delete (folder_path "out" "Frank F") (fs empty_world)
    /\ fs w' !! folder_path "out" "Frank F" = None.
Proof.
  apply (missing_series_rolls_back short_site (profile_link "frank") "out"
           empty_world "frank" frank "Frank F").
  - apply resolves_example; reflexivity.
  - left. reflexivity.
  - reflexivity.
Defined.

(** The rollback also covers an error of the computation itself. *)
Example rollback_on_bad_count :
  exists w',
    create_profile short_site (profile_link "grace") "out" empty_world
    = (Ok false, w')
    /\ fs w' !! folder_path "out" "Grace G" = None.
Proof. eexists. split; vm_compute; reflexivity. Qed.

(** C5, as the spec states it, fails on an author without a citation
    series whose picture does not download: the extractor returns from the
    picture step and the directory stays. *)
Lemma missing_series_leaves_nothing_fails :
  ~ missing_series_leaves_nothing short_site (profile_link "carol") "out"
      empty_world.
Proof.
  intros H.
  destruct (H "carol" carol "Carol C") as (w' & Hrun & Hnone).
  - now apply resolves_example.
  - reflexivity.
  - assert (Hc : create_profile short_site (profile_link "carol") "out"
                   empty_world
                 = (Ok false,
                    snd (create_profile short_site (profile_link "carol")
                           "out" empty_world)))
      by (vm_compute; reflexivity).
    rewrite Hc in Hrun. injection Hrun as <-.
    vm_compute in Hnone. discriminate Hnone.
Qed.

Lemma bob_lacks_only_picture : lacks_only_picture bob.
Proof.
  unfold lacks_only_picture, bob, base; cbn.
  split; [reflexivity|]. do 7 (split; [eexists; reflexivity|]).
  eexists; reflexivity.
Qed.

Lemma bob_well_formed : well_formed bob.
Proof.
  split.
  - intros cs [= <-]. constructor; [eexists; reflexivity|constructor].
  - exists [(2019, 40); (2020, 70); (2021, 10)]. split; [discriminate|reflexivity].
Qed.

Lemma picture_policy_witness :
  (exists w' files,
      create_profile short_site (profile_link "bob") "out" empty_world
      = (Ok true, w')
      /\ In (Print ("Author " +:+ "Bob B" +:+ " has no picture")) (trace w')
      /\ fs w' !! folder_path "out" "Bob B" = Some files
      /\ is_Some (files !! DATA)
      /\ files !! PICTURE = None)
  /\ (exists w',
        create_profile short_site (profile_link "dave") "out" empty_world
        = (Ok false, w')
        /\ fs w' = fs (snd (new_folder short_site (folder_path "out" "Dave D")
                              empty_world))
        /\ (folder_ok short_site (folder_path "out" "Dave D") empty_world = true ->
            is_Some (fs w' !! folder_path "out" "Dave D")
            /\ In (Print ("Failure while downloading data for author: "
                          +:+ profile_link "dave")) (trace w'))).
Proof.
  split.
  - apply (proj1 (picture_policy short_site (profile_link "bob") "out"
                    empty_world "bob" bob "Bob B"
                    ltac:(apply resolves_example; reflexivity))).
    + exact bob_lacks_only_picture.
    + exact bob_well_formed.
    + reflexivity.
    + intros files Hf. vm_compute in Hf. discriminate Hf.
    + reflexivity.
  - apply (proj2 (picture_policy short_site (profile_link "dave") "out"
                    empty_world "dave" dave "Dave D"
                    ltac:(apply resolves_example; reflexivity))).
    reflexivity.
Defined.

(** C6, as the spec states it, fails on authors whose profile lacks only
    the picture URL: with an empty citation series the extractor raises
    [IndexError]; with a count that is not a number it rolls the directory
    back and returns failure; when the directory cannot be made it returns
    failure; and in a directory that is there from before with a picture,
    the picture stays. *)
Lemma missing_picture_succeeds_fails :
  ~ missing_picture_succeeds Example2.site (profile_link "erin") "out"
      empty_world
  /\ ~ missing_picture_succeeds short_site (profile_link "grace") "out"
         empty_world
  /\ ~ missing_picture_succeeds short_site (profile_link "bob") "readonly"
         empty_world
  /\ ~ missing_picture_succeeds short_site (profile_link "bob") "out"
         Example3.stale_world.
Proof.
  assert (Hlacks : forall n c, lacks_only_picture (base n None (Some c))).
  { intros n c. unfold lacks_only_picture, base; cbn.
    split; [reflexivity|]. do 7 (split; [eexists; reflexivity|]).
    eexists; reflexivity. }
  split; [|split; [|split]]; intros H.
  - destruct (H "erin" Example2.erin "Erin E") as (w' & files & Hrun & _).
    + repeat split; reflexivity.
    + apply Hlacks.
    + assert (Hc : fst (create_profile Example2.site (profile_link "erin")
                          "out" empty_world) = Raise IndexError)
        by (vm_compute; reflexivity).
      rewrite Hrun in Hc. discriminate Hc.
  - destruct (H "grace" grace "Grace G") as (w' & files & Hrun & _).
    + now apply resolves_example.
    + apply Hlacks.
    + assert (Hc : fst (create_profile short_site (profile_link "grace")
                          "out" empty_world) = Ok false)
        by (vm_compute; reflexivity).
      rewrite Hrun in Hc. discriminate Hc.
  - destruct (H "bob" bob "Bob B") as (w' & files & Hrun & _).
    + now apply resolves_example.
    + apply Hlacks.
    + assert (Hc : fst (create_profile short_site (profile_link "bob")
                          "readonly" empty_world) = Ok false)
        by (vm_compute; reflexivity).
      rewrite Hrun in Hc. discriminate Hc.
  - destruct (H "bob" bob "Bob B") as (w' & files & Hrun & _ & Hdir & _ & Hpic).
    + now apply resolves_example.
    + apply Hlacks.
    + assert (Hc : exists files0,
                 fs (snd (create_profile short_site (profile_link "bob") "out"
                            Example3.stale_world)) !! folder_path "out" "Bob B"
                 = Some files0
                 /\ files0 !! PICTURE = Some "old picture").
      { eexists. split; vm_compute; reflexivity. }
      destruct Hc as (files0 & Hdir0 & Hpic0).
      rewrite Hrun in Hdir0. cbn [snd] in Hdir0.
      rewrite Hdir in Hdir0. injection Hdir0 as <-.
      rewrite Hpic in Hpic0. discriminate Hpic0.
Qed.

(** The other ways in which such an author is not saved: a co-author
    without a name, a year that is not a number, a text file that cannot
    be opened.  The exception leaves [create_profile]. *)
Example missing_picture_other_failures :
  fst (create_profile Example3.site (profile_link "ivan") "out" empty_world)
  = Raise KeyError
  /\ fst (create_profile Example3.site (profile_link "judy") "out" empty_world)
     = Raise TypeError
  /\ fst (create_profile Example3.site (profile_link "bob") "locked"
            empty_world)
     = Raise PermissionError.
Proof. repeat split; vm_compute; reflexivity. Qed.

End AuthorExamples.

(** ** What a run adds to the trace *)

Section Traces.
Context (E : env).

Lemma page_sites_app (a b : list event) :
  page_sites (a ++ b) = (page_sites a ++ page_sites b)%list.
Proof. apply flat_map_app. Qed.

Lemma lookups_app (a b : list event) :
  lookups (a ++ b) = (lookups a ++ lookups b)%list.
Proof. apply flat_map_app. Qed.

Lemma author_events_quiet (t : list event) :
  Forall author_event t -> page_sites t = [] /\ lookups t = [].
Proof.
  induction 1 as [|e t He _ [IH1 IH2]]; [auto|].
  destruct e as [msg|[] url|id]; simpl in *; try contradiction; auto.
Qed.

Lemma quiet_ret {A} (a : A) : quiet (ret a).
Proof. intros w. exists []. split; [now rewrite app_nil_r|constructor]. Qed.

Lemma quiet_raise {A} (e : exn) : quiet (@raise A e).
Proof. intros w. exists []. split; [now rewrite app_nil_r|constructor]. Qed.

Lemma quiet_lift {A} (r : res A) : quiet (lift r).
Proof. intros w. exists []. split; [now rewrite app_nil_r|constructor]. Qed.

Lemma quiet_get_fs : quiet get_fs.
Proof. intros w. exists []. split; [now rewrite app_nil_r|constructor]. Qed.

Lemma quiet_set_fs (f : gmap string (gmap string string)) : quiet (set_fs f).
Proof. intros w. exists []. split; [now rewrite app_nil_r|constructor]. Qed.

Lemma quiet_emit (e : event) : author_event e -> quiet (emit e).
Proof. intros He w. exists [e]. split; [reflexivity|now repeat constructor]. Qed.

Lemma quiet_bind {A B} (m : M A) (k : A -> M B) :
  quiet m -> (forall a, quiet (k a)) -> quiet (bind m k).
Proof.
  intros Hm Hk w. unfold bind. destruct (Hm w) as (t1 & Ht1 & Hq1).
  destruct (m w) as [[a|e] w1]; cbn [snd] in *.
  - destruct (Hk a w1) as (t2 & Ht2 & Hq2). exists (t1 ++ t2)%list.
    split; [now rewrite Ht2, Ht1, app_assoc|now apply Forall_app].
  - now exists t1.
Qed.

Lemma quiet_catch {A} (m : M A) (h : exn -> M A) :
  quiet m -> (forall e, quiet (h e)) -> quiet (catch m h).
Proof.
  intros Hm Hh w. unfold catch. destruct (Hm w) as (t1 & Ht1 & Hq1).
  destruct (m w) as [[a|e] w1]; cbn [snd] in *.
  - now exists t1.
  - destruct (Hh e w1) as (t2 & Ht2 & Hq2). exists (t1 ++ t2)%list.
    split; [now rewrite Ht2, Ht1, app_assoc|now apply Forall_app].
Qed.

Ltac quiet_tac :=
  repeat first
    [ apply quiet_ret | apply quiet_raise | apply quiet_lift
    | apply quiet_get_fs | apply quiet_set_fs
    | apply quiet_emit; exact I
    | apply quiet_bind; [|intros ?]
    | apply quiet_catch; [|intros ?]
    | match goal with
      | |- adds _ (match ?x with _ => _ end) => destruct x
      | |- adds _ (if ?x then _ else _) => destruct x
      | |- adds _ (let '(_, _) := ?x in _) => destruct x
      end ].

Lemma quiet_new_folder (path : string) : quiet (new_folder E path).
Proof. unfold new_folder, os_mkdir, print. quiet_tac. Qed.

Lemma quiet_save_picture (author : profile) (author_name link cur : string) :
  quiet (save_picture E author author_name link cur).
Proof.
  unfold save_picture, http_get, open_w, file_write, print. quiet_tac.
Qed.

Lemma quiet_derived_statistics (author : profile) (author_name cur : string) :
  quiet (derived_statistics author author_name cur).
Proof. unfold derived_statistics, rmtree, print. quiet_tac. Qed.

Lemma quiet_save_data (author : profile) (cur : string) (stats : Z * Z * Z) :
  quiet (save_data E author cur stats).
Proof. unfold save_data, open_w, file_write. quiet_tac. Qed.

(** After the lookup the Author Extractor only prints and requests the
    picture. *)
Lemma quiet_save_profile (author : profile) (link path : string) :
  quiet (save_profile E author link path).
Proof.
  unfold save_profile.
  apply quiet_bind; [apply quiet_lift|intros author_name]. cbn zeta.
  apply quiet_bind; [apply quiet_new_folder|intros created].
  destruct (negb created); [apply quiet_ret|].
  apply quiet_bind; [apply quiet_save_picture|intros saved].
  destruct (negb saved); [apply quiet_ret|].
  apply quiet_bind; [apply quiet_derived_statistics|intros [stats|]].
  - apply quiet_save_data.
  - apply quiet_ret.
Qed.

(** One call of the Author Extractor: no page request; one lookup, of the
    id of the link, unless the link has no id, in which case the call
    raises [ValueError] and adds nothing. *)
Lemma create_profile_trace (link out : string) (w : world) :
  exists t,
    trace (snd (create_profile E link out w)) = (trace w ++ t)%list
    /\ page_sites t = []
    /\ ((exists author_id, get_author_id link = Ok author_id
                           /\ lookups t = [author_id])
        \/ (get_author_id link = Raise ValueError
            /\ create_profile E link out w = (Raise ValueError, w))).
Proof.
  unfold create_profile, search_and_fill, bind, lift, emit.
  destruct (get_author_id link) as [author_id|e] eqn:Hid.
  - destruct (scholarly_fetch E author_id) as [author|e].
    + destruct (quiet_save_profile author link out
                  (log (SearchAuthor author_id) w)) as (t & Ht & Hq).
      exists (SearchAuthor author_id :: t). split; [|split].
      * rewrite Ht. cbn [trace log]. now rewrite <- app_assoc.
      * simpl. now apply author_events_quiet.
      * left. exists author_id. split; [reflexivity|]. simpl.
        now destruct (author_events_quiet t Hq) as [_ ->].
    + exists [SearchAuthor author_id]. split; [reflexivity|].
      split; [reflexivity|]. left. now exists author_id.
  - exists []. split; [now rewrite app_nil_r|]. split; [reflexivity|].
    right. unfold get_author_id, PyStr.index in Hid.
    destruct (PyStr.find "user=" link); [discriminate|].
    injection Hid as <-. auto.
Qed.

End Traces.

(** ** Page Extractor *)

Section PageExtractor.
Context (E : env).

Lemma dispatch_cons (link : string) (rest : list string) (out : string)
    (w : world) :
  dispatch E (link :: rest) out w =
  match create_profile E link out w with
  | (Ok _, w1) => dispatch E rest out w1
  | (Raise FileNotFoundError, w1) =>
      dispatch E rest out
        (log (Print ("There was a problem with author: " +:+ link)) w1)
  | (Raise e, w1) => (Raise e, w1)
  end.
Proof.
  cbn [dispatch]. unfold bind, catch, ret, print, emit, raise.
  destruct (create_profile E link out w) as [[b|[]] w1]; reflexivity.
Qed.

Lemma dispatch_not_found (links : list string) (out : string) (w : world) :
  fst (dispatch E links out w) <> Raise FileNotFoundError.
Proof.
  revert w; induction links as [|link rest IH]; intros w; [discriminate|].
  rewrite dispatch_cons.
  destruct (create_profile E link out w) as [[b|[]] w1];
    solve [apply IH | discriminate].
Qed.

(** A page adds no page request to the trace; when its loop returns, every
    link of the page was looked up, in order. *)
Lemma dispatch_trace (links : list string) (out : string) (w : world) :
  exists t,
    trace (snd (dispatch E links out w)) = (trace w ++ t)%list
    /\ page_sites t = []
    /\ (fst (dispatch E links out w) = Ok tt ->
        Forall2 (fun link id => get_author_id link = Ok id) links (lookups t)).
Proof.
  revert w; induction links as [|link rest IH]; intros w.
  - exists []. split; [now rewrite app_nil_r|]. split; [reflexivity|].
    intros _. constructor.
  - rewrite dispatch_cons.
    destruct (create_profile_trace E link out w) as (t1 & Ht1 & Hp1 & Hid).
    destruct (create_profile E link out w) as [[b|e] w1] eqn:Hrun;
      cbn [snd] in Ht1.
    + destruct (IH w1) as (t2 & Ht2 & Hp2 & Hok).
      exists (t1 ++ t2)%list. split; [now rewrite Ht2, Ht1, app_assoc|].
      split; [now rewrite page_sites_app, Hp1, Hp2|].
      intros Hr. rewrite lookups_app.
      destruct Hid as [(id & Hid & ->)|[_ [=]]].
      constructor; [exact Hid|now apply Hok].
    + assert (Hstop : exists t,
                 trace w1 = (trace w ++ t)%list /\ page_sites t = []
                 /\ (@fst (res unit) world (Raise e, w1) = Ok tt ->
                     Forall2 (fun link id => get_author_id link = Ok id)
                             (link :: rest) (lookups t))).
      { exists t1. split; [exact Ht1|]. split; [exact Hp1|]. discriminate. }
      destruct e; try exact Hstop. clear Hstop.
      set (w2 := log (Print ("There was a problem with author: " +:+ link)) w1).
      destruct (IH w2) as (t2 & Ht2 & Hp2 & Hok).
      exists (t1 ++ Print ("There was a problem with author: " +:+ link) :: t2)%list.
      split; [|split].
      * rewrite Ht2. unfold w2. cbn [trace log]. rewrite Ht1.
        now rewrite <- !app_assoc.
      * rewrite page_sites_app, Hp1. simpl. exact Hp2.
      * intros Hr. rewrite lookups_app. simpl.
        destruct Hid as [(id & Hid & ->)|[_ [=]]].
        constructor; [exact Hid|now apply Hok].
Qed.

(** C1 (amended). At the dispatch boundary of the page loop,
    [FileNotFoundError] is the failure that is caught: it is logged and the
    loop goes on with the next author, so the page loop never raises it.
    A failure that the Author Extractor reports by returning is ignored.
    Any other exception of the Author Extractor leaves the page loop at
    once.  When the page loop returns, every author of the page was
    dispatched, in the order of the page. *)
Theorem not_found_is_caught (soup out : string) (w : world) :
  fst (load_10_researchers E soup out w) <> Raise FileNotFoundError
  /\ (forall link rest w0 w1,
        create_profile E link out w0 = (Raise FileNotFoundError, w1) ->
        dispatch E (link :: rest) out w0
        = dispatch E rest out
            (log (Print ("There was a problem with author: " +:+ link)) w1))
  /\ (forall link rest w0 w1 b,
        create_profile E link out w0 = (Ok b, w1) ->
        dispatch E (link :: rest) out w0 = dispatch E rest out w1)
  /\ (forall link rest w0 w1 e,
        create_profile E link out w0 = (Raise e, w1) ->
        e <> FileNotFoundError ->
        dispatch E (link :: rest) out w0 = (Raise e, w1))
  /\ (fst (load_10_researchers E soup out w) = Ok tt ->
      exists t,
        trace (snd (load_10_researchers E soup out w)) = (trace w ++ t)%list
        /\ authors_processed soup t).
Proof.
  split; [apply dispatch_not_found|]. split; [|split; [|split]].
  - intros link rest w0 w1 H. rewrite dispatch_cons, H. reflexivity.
  - intros link rest w0 w1 b H. rewrite dispatch_cons, H. reflexivity.
  - intros link rest w0 w1 e H Hne. rewrite dispatch_cons, H.
    destruct e; try reflexivity. congruence.
  - intros Hok. unfold load_10_researchers in *.
    destruct (dispatch_trace (profile_links_of soup) out w) as (t & Ht & Hp & Hall).
    exists t. split; [exact Ht|]. split; [exact Hp|now apply Hall].
Qed.

End PageExtractor.

Section PageExamples.
Import Example.

Lemma not_found_is_caught_witness :
  dispatch short_site [profile_link "nobody"; profile_link "alice"] "out"
    empty_world
  = dispatch short_site [profile_link "alice"] "out"
      (log (Print ("There was a problem with author: " +:+ profile_link "nobody"))
           (snd (create_profile short_site (profile_link "nobody") "out"
                   empty_world))).
Proof.
  apply (proj1 (proj2 (not_found_is_caught short_site gone_page "out"
                         empty_world))).
  vm_compute. reflexivity.
Defined.

(** The page loop goes on after the author that is not found. *)
Example page_with_unknown_author :
  fst (load_10_researchers short_site gone_page "out" empty_world) = Ok tt
  /\ lookups (trace (snd (load_10_researchers short_site gone_page "out"
                            empty_world)))
     = ["nobody"; "alice"].
Proof. split; vm_compute; reflexivity. Qed.

(** A page of three anchors gives three profile links, in the order of the
    page. *)
Example three_anchors :
  profile_links_of (anchor (link_of "alice") +:+ "<p>text</p>"
                    +:+ anchor (link_of "bob") +:+ anchor (link_of "carol"))
  = [profile_link "alice"; profile_link "bob"; profile_link "carol"].
Proof. vm_compute. reflexivity. Qed.

(** C1, as the spec states it, fails on a page whose first author makes
    the provider raise another exception: it leaves the page loop, and the
    second author of the page is never looked up. *)
Lemma page_never_fails_fails :
  ~ page_never_fails short_site down_page "out" empty_world.
Proof.
  intros [w' H].
  assert (Hc : fst (load_10_researchers short_site down_page "out" empty_world)
               = Raise ProviderError) by (vm_compute; reflexivity).
  rewrite H in Hc. discriminate Hc.
Qed.

Example page_with_failing_provider :
  fst (load_10_researchers short_site down_page "out" empty_world)
  = Raise ProviderError
  /\ lookups (trace (snd (load_10_researchers short_site down_page "out"
                            empty_world)))
     = ["down"].
Proof. split; vm_compute; reflexivity. Qed.

End PageExamples.

(** ** Paginator *)

Section Paginator.
Context (E : env).

Lemma next_page_raises (soup : string) (e : exn) :
  next_page soup = Raise e -> e = ValueError.
Proof.
  unfold next_page. destruct (String.eqb _ ""); congruence.
Qed.

Lemma skip_loop_S (n : nat) (i : Z) (url : string) (w : world) :
  skip_loop E (S n) i url w =
  let w1 := log (Get SkipPage url)
              (log (Print ("Currently skipping page number: " +:+ pretty (i + 1))) w) in
  match requests_get E url with
  | None => (Raise RequestException, w1)
  | Some content =>
      match next_page (soup_str E content) with
      | Ok url' => skip_loop E n (i + 1) url' w1
      | Raise e => (Raise e, w1)
      end
  end.
Proof.
  cbn [skip_loop]. unfold http_get, bind, print, emit, lift, ret, raise.
  destruct (requests_get E url) as [content|]; [|reflexivity].
  cbn zeta. destruct (next_page (soup_str E content)); reflexivity.
Qed.

Lemma load_loop_S (n : nat) (i : Z) (url out : string) (w : world) :
  load_loop E (S n) i url out w =
  let w1 := log (Get LoadPage url)
              (log (Print ("Currently scraping page number: " +:+ pretty (i + 1))) w) in
  match requests_get E url with
  | None => (Raise RequestException, w1)
  | Some content =>
      match load_10_researchers E (soup_str E content) out w1 with
      | (Ok _, w2) =>
          match next_page (soup_str E content) with
          | Ok url' => load_loop E n (i + 1) url' out w2
          | Raise e => (Raise e, w2)
          end
      | (Raise e, w2) => (Raise e, w2)
      end
  end.
Proof.
  cbn [load_loop]. unfold http_get, bind, print, emit, lift, ret, raise.
  destruct (requests_get E url) as [content|]; [|reflexivity].
  cbn zeta. destruct (load_10_researchers E _ out _) as [[?|e] w2];
    [|reflexivity].
  destruct (next_page (soup_str E content)); reflexivity.
Qed.

Lemma skip_phase_sites (n : nat) (t : list event) :
  skip_phase n t -> page_sites t = repeat SkipPage n /\ lookups t = [].
Proof.
  induction 1 as [|n msg url t _ [IH1 IH2]]; [auto|]. simpl.
  now rewrite IH1, IH2.
Qed.

(** The skip phase: a progress line and a request per page; it stops
    early only on a request that raises or on the next-page error. *)
Lemma skip_loop_trace (n : nat) (i : Z) (url : string) (w : world) :
  exists t k,
    trace (snd (skip_loop E n i url w)) = (trace w ++ t)%list
    /\ skip_phase k t /\ (k <= n)%nat
    /\ (forall u, fst (skip_loop E n i url w) = Ok u -> k = n)
    /\ (forall e, fst (skip_loop E n i url w) = Raise e ->
                  e = ValueError \/ e = RequestException).
Proof.
  revert i url w; induction n as [|n IH]; intros i url w.
  - exists [], O. cbn. rewrite app_nil_r.
    repeat split; auto using skip_phase_done. discriminate.
  - rewrite skip_loop_S. cbn zeta.
    set (msg := "Currently skipping page number: " +:+ pretty (i + 1)).
    set (w1 := log (Get SkipPage url) (log (Print msg) w)).
    assert (Hstop : forall e,
               e = ValueError \/ e = RequestException ->
               exists t k,
                 trace (snd (@Raise string e, w1)) = (trace w ++ t)%list
                 /\ skip_phase k t /\ (k <= S n)%nat
                 /\ (forall u, fst (@Raise string e, w1) = Ok u -> k = S n)
                 /\ (forall e', fst (@Raise string e, w1) = Raise e' ->
                                e' = ValueError \/ e' = RequestException)).
    { intros e He. exists [Print msg; Get SkipPage url], 1%nat.
      split; [unfold w1; cbn; now rewrite <- app_assoc|].
      split; [repeat constructor|]. split; [lia|].
      split; [discriminate|]. cbn. intros e' [= <-]. exact He. }
    destruct (requests_get E url) as [content|]; [|apply Hstop; auto].
    destruct (next_page (soup_str E content)) as [url'|e] eqn:Hnext.
    + destruct (IH (i + 1) url' w1) as (t & k & Ht & Hphase & Hk & Hok & Herr).
      exists (Print msg :: Get SkipPage url :: t), (S k).
      split; [rewrite Ht; unfold w1; cbn; now rewrite <- !app_assoc|].
      split; [now constructor|]. split; [lia|].
      split; [intros u Hu; f_equal; eapply Hok; eauto|exact Herr].
    + apply Hstop. left. eapply next_page_raises; eauto.
Qed.

Lemma load_phase_sites (n : nat) (t : list event) :
  load_phase E n t -> page_sites t = repeat LoadPage n.
Proof.
  induction 1 as [|n msg url content ta t _ [Hp _] _ IH]; [reflexivity|].
  simpl. now rewrite page_sites_app, Hp, IH.
Qed.

(** The load phase: at most [n] page requests, and when it returns, [n]
    pages whose authors were all processed. *)
Lemma load_loop_trace (n : nat) (i : Z) (url out : string) (w : world) :
  exists t k,
    trace (snd (load_loop E n i url out w)) = (trace w ++ t)%list
    /\ page_sites t = repeat LoadPage k /\ (k <= n)%nat
    /\ (forall u, fst (load_loop E n i url out w) = Ok u ->
                  load_phase E n t /\ k = n).
Proof.
  revert i url w; induction n as [|n IH]; intros i url w.
  - exists [], O. cbn. rewrite app_nil_r.
    repeat split; auto using load_phase_done.
  - rewrite load_loop_S. cbn zeta.
    set (msg := "Currently scraping page number: " +:+ pretty (i + 1)).
    set (w1 := log (Get LoadPage url) (log (Print msg) w)).
    destruct (requests_get E url) as [content|] eqn:Hget.
    2:{ exists [Print msg; Get LoadPage url], 1%nat.
        split; [unfold w1; cbn; now rewrite <- app_assoc|].
        split; [reflexivity|]. split; [lia|]. discriminate. }
    unfold load_10_researchers.
    destruct (dispatch_trace E (profile_links_of (soup_str E content)) out w1)
      as (ta & Hta & Hpa & Hall).
    destruct (dispatch E _ out w1) as [[[]|e] w2]; cbn [fst snd] in *;
      cbn beta iota.
    2:{ exists (Print msg :: Get LoadPage url :: ta), 1%nat.
        split; [rewrite Hta; unfold w1; cbn; now rewrite <- !app_assoc|].
        split; [simpl; now rewrite Hpa|]. split; [lia|]. discriminate. }
    destruct (next_page (soup_str E content)) as [url'|e].
    2:{ exists (Print msg :: Get LoadPage url :: ta), 1%nat. cbn [fst snd].
        split; [rewrite Hta; unfold w1; cbn; now rewrite <- !app_assoc|].
        split; [simpl; now rewrite Hpa|]. split; [lia|]. discriminate. }
    destruct (IH (i + 1) url' w2) as (t & k & Ht & Hp & Hk & Hok).
    exists (Print msg :: Get LoadPage url :: (ta ++ t))%list, (S k).
    split; [rewrite Ht, Hta; unfold w1; cbn; now rewrite <- !app_assoc|].
    split; [simpl; now rewrite page_sites_app, Hpa, Hp|]. split; [lia|].
    intros u Hu. destruct (Hok u Hu) as [Hphase ->]. split; [|reflexivity].
    econstructor; eauto. split; [exact Hpa|now apply Hall].
Qed.

Lemma next_page_without_after (soup : string) :
  Forall (fun r => has_after r = false) (next_matches soup) ->
  next_page soup = Raise ValueError.
Proof.
  intros H. unfold next_page. fold (next_matches soup).
  rewrite select_after_none by exact H. reflexivity.
Qed.

(** C8. A run with a skip count and a page count makes its page requests
    in two phases.  The skip phase adds to the trace a progress line and a
    page request per page and nothing else (no author is looked up); the
    load phase follows it.  There are never more than [skip] requests of
    the first kind and [pages] of the second, and the load phase starts
    only after [skip] skip requests.  A run that returns has made exactly
    [skip] skip requests followed by exactly [pages] load requests,
    [skip + pages] in all, and on each loaded page every author was
    processed; a run that stops before that stops on an exception, which in
    the skip phase is the next-page error or a failed request. *)
Theorem paginator_fetches (url : string) (skip pages : nat) (out : string)
    (w : world) :
  let r := skip_n_pages E url (Z.of_nat skip) (Z.of_nat pages) out w in
  exists ts tl a b,
    trace (snd r) = (trace w ++ ts ++ tl)%list
    /\ skip_phase a ts /\ lookups ts = []
    /\ page_sites (ts ++ tl) = (repeat SkipPage a ++ repeat LoadPage b)%list
    /\ (a <= skip)%nat /\ (b <= pages)%nat
    /\ ((a < skip)%nat -> tl = [])
    /\ (length (page_sites (ts ++ tl)) <= skip + pages)%nat
    /\ (fst r = Ok tt ->
        a = skip /\ b = pages /\ load_phase E pages tl
        /\ length (page_sites (ts ++ tl)) = (skip + pages)%nat)
    /\ ((a < skip)%nat ->
        fst r = Raise ValueError \/ fst r = Raise RequestException).
Proof.
  cbn zeta. unfold skip_n_pages, load_n_pages, bind, ret.
  rewrite !Nat2Z.id.
  destruct (skip_loop_trace skip 0 url w) as (ts & a & Hts & Hphase & Ha & Hok & Herr).
  destruct (skip_phase_sites a ts Hphase) as [Hsites Hlook].
  destruct (skip_loop E skip 0 url w) as [[url'|e] w1]; cbn [fst snd] in *.
  - pose proof (Hok url' eq_refl) as ->.
    destruct (load_loop_trace pages 0 url' out w1) as (tl & b & Htl & Hp & Hb & Hload).
    exists ts, tl, skip, b.
    assert (Hs : page_sites (ts ++ tl) = (repeat SkipPage skip ++ repeat LoadPage b)%list)
      by now rewrite page_sites_app, Hsites, Hp.
    assert (Hlen : length (page_sites (ts ++ tl)) = (skip + b)%nat)
      by now rewrite Hs, length_app, !repeat_length.
    destruct (load_loop E pages 0 url' out w1) as [[u|e] w2]; cbn [fst snd] in *.
    + destruct (Hload u eq_refl) as [Hl ->].
      split; [now rewrite Htl, Hts, app_assoc|].
      repeat split; auto; lia.
    + split; [now rewrite Htl, Hts, app_assoc|].
      repeat split; auto; try lia; discriminate.
  - exists ts, [], a, O. rewrite !app_nil_r.
    split; [exact Hts|]. split; [exact Hphase|]. split; [exact Hlook|].
    split; [exact Hsites|]. split; [exact Ha|]. split; [lia|].
    split; [reflexivity|].
    split; [rewrite Hsites, repeat_length; lia|].
    split; [discriminate|]. intros _.
    destruct (Herr e eq_refl) as [-> | ->]; auto.
Qed.

Lemma load_loop_last (out : string) (n : nat) :
  forall (i : Z) (url : string) (w : world) (u : string) (w1 : world),
    load_loop E n i url out w = (Ok u, w1) ->
    load_loop E (S n) i url out w = load_loop E 1 (i + Z.of_nat n) u out w1.
Proof.
  induction n as [|n IH]; intros i url w u w1 H.
  - cbn in H. injection H as <- <-. now rewrite Z.add_0_r.
  - rewrite (load_loop_S (S n)). rewrite load_loop_S in H. cbn zeta in *.
    destruct (requests_get E url) as [content|]; [|discriminate H].
    destruct (load_10_researchers E _ out _) as [[[]|e] w2]; [|discriminate H].
    destruct (next_page (soup_str E content)) as [url'|e]; [|discriminate H].
    rewrite (IH _ _ _ _ _ H). f_equal. lia.
Qed.

(** C9. The load phase resolves the next-page link on every iteration,
    the last one included.  When the first [n] pages of a load of [n + 1]
    pages went well, the last page was fetched and every author on it was
    processed, and no match of that page has the token, the run ends with
    the next-page error, in the state reached after the authors of the last
    page: what was saved stays saved.  The same holds after a skip phase. *)
Theorem last_page_without_next (url out : string) (n : nat) (w w1 w2 : world)
    (u content : string) :
  load_loop E n 0 url out w = (Ok u, w1) ->
  requests_get E u = Some content ->
  load_10_researchers E (soup_str E content) out
    (log (Get LoadPage u)
       (log (Print ("Currently scraping page number: "
                    +:+ pretty (Z.of_nat n + 1))) w1))
  = (Ok tt, w2) ->
  Forall (fun r => has_after r = false) (next_matches (soup_str E content)) ->
  next_page (soup_str E content) = Raise ValueError
  /\ load_n_pages E url (Z.of_nat (S n)) out w = (Raise ValueError, w2)
  /\ (forall url0 skip w0,
        skip_loop E skip 0 url0 w0 = (Ok url, w) ->
        skip_n_pages E url0 (Z.of_nat skip) (Z.of_nat (S n)) out w0
        = (Raise ValueError, w2)).
Proof.
  intros Hfirst Hget Hauthors Hnone.
  pose proof (next_page_without_after _ Hnone) as Hnext.
  assert (Hrun : load_n_pages E url (Z.of_nat (S n)) out w = (Raise ValueError, w2)).
  { unfold load_n_pages, bind. rewrite Nat2Z.id.
    rewrite (load_loop_last out n 0 url w u w1 Hfirst), load_loop_S.
    cbn zeta. rewrite Z.add_0_l, Hget, Hauthors, Hnext. reflexivity. }
  split; [exact Hnext|]. split; [exact Hrun|].
  intros url0 skip w0 Hskip. unfold skip_n_pages, bind.
  rewrite Nat2Z.id, Hskip. exact Hrun.
Qed.

End Paginator.

Section PaginatorExamples.
Import Example.

Lemma next_page_resolution_witness :
  next_page mid_page
  = Ok "https://scholar.google.co.il/citations?view_op=search_authors&hl=en&after_author=AbCd&astart=10"
  /\ next_page last_page = Raise ValueError
  /\ decode (PyStr.slice_1_m3
               (String "'" ("/citations?hl\x3den\x26after_author\x3dAbCd"
                            +:+ "'" +:+ dq +:+ " ")))
     = PyStr.slice_1_m3
         (decode (String "'" ("/citations?hl\x3den\x26after_author\x3dAbCd"
                              +:+ "'" +:+ dq +:+ " "))).
Proof.
  split; [|split].
  - apply (proj1 (proj2 (next_page_resolution mid_page))
             (firstn 1 (next_matches mid_page))
             (nth 1 (next_matches mid_page) "") []).
    + vm_compute. reflexivity.
    + vm_compute. reflexivity.
    + constructor.
  - apply (proj1 (next_page_resolution last_page)).
    vm_compute. repeat constructor.
  - apply (proj2 (proj2 (proj2 (proj2 (next_page_resolution mid_page))))
             "'"%char "/citations?hl\x3den\x26after_author\x3dAbCd"
             ("'" +:+ dq +:+ " ")); reflexivity.
Defined.

Lemma paginator_fetches_witness :
  exists ts tl,
    trace (snd (skip_n_pages endless_site start_url 2 3 "out" empty_world))
    = (ts ++ tl)%list
    /\ skip_phase 2 ts /\ load_phase endless_site 3 tl
    /\ length (page_sites (ts ++ tl)) = 5%nat.
Proof.
  destruct (paginator_fetches endless_site start_url 2 3 "out" empty_world)
    as (ts & tl & a & b & Ht & Hs & _ & _ & _ & _ & _ & _ & Hok & _).
  destruct Hok as (-> & -> & Hl & Hlen); [vm_compute; reflexivity|].
  exists ts, tl. repeat split; assumption.
Defined.

Lemma last_page_without_next_witness :
  next_page last_page = Raise ValueError
  /\ load_n_pages short_site start_url (Z.of_nat 2) "out" empty_world
     = (Raise ValueError,
        snd (load_n_pages short_site start_url 2 "out" empty_world))
  /\ (forall url0 skip w0,
        skip_loop short_site skip 0 url0 w0 = (Ok start_url, empty_world) ->
        skip_n_pages short_site url0 (Z.of_nat skip) (Z.of_nat 2) "out" w0
        = (Raise ValueError,
           snd (load_n_pages short_site start_url 2 "out" empty_world))).
Proof.
  apply (last_page_without_next short_site start_url "out" 1 empty_world
           (snd (load_loop short_site 1 0 start_url "out" empty_world))
           (snd (load_n_pages short_site start_url 2 "out" empty_world))
           "https://scholar.google.co.il/citations?view_op=search_authors&hl=en&after_author=AbCd&astart=10"
           last_page).
  - vm_compute. reflexivity.
  - vm_compute. reflexivity.
  - vm_compute. reflexivity.
  - vm_compute. repeat constructor.
Defined.

(** On the two-page site the authors of both pages are on disk when the
    run stops on the next-page error. *)
Example short_site_run :
  fst (load_n_pages short_site start_url 2 "out" empty_world) = Raise ValueError
  /\ is_Some (fs (snd (load_n_pages short_site start_url 2 "out" empty_world))
              !! folder_path "out" "Alice A")
  /\ is_Some (fs (snd (load_n_pages short_site start_url 2 "out" empty_world))
              !! folder_path "out" "Bob B").
Proof. repeat split; vm_compute; eexists; reflexivity. Qed.

End PaginatorExamples.

(** * More properties of the script *)

(** ** The directory step *)

Section FolderStep.
Context (E : env).

(** X1. [new_folder] never raises.  It returns [True] exactly when the
    directory is there afterwards, that is when it was there already or
    could be made; it changes no other directory, leaves a directory that
    was there with its files, and makes a new directory empty. *)
Theorem new_folder_outcome (path : string) (w : world) :
  exists b w',
    new_folder E path w = (Ok b, w')
    /\ b = folder_ok E path w
    /\ (b = true <-> is_Some (fs w' !! path))
    /\ (forall q, q <> path -> fs w' !! q = fs w !! q)
    /\ (forall files, fs w !! path = Some files -> fs w' = fs w)
    /\ (fs w !! path = None -> b = true -> fs w' !! path = Some ∅).
Proof.
  rewrite new_folder_eq. unfold folder_ok.
  destruct (fs w !! path) as [files|] eqn:Hpath;
    [|destruct (mkdir_fault E path) as [fault|] eqn:Hmk];
    eexists; eexists; (split; [reflexivity|]); cbn [fs log with_fs];
    (split; [reflexivity|]).
  - rewrite Hpath. repeat split; eauto; discriminate.
  - rewrite Hpath. split; [split; [discriminate|intros [? ?]; discriminate]|].
    repeat split; auto; discriminate.
  - rewrite lookup_insert_eq. split; [split; eauto|].
    split; [intros q Hq; now rewrite lookup_insert_ne|].
    split; [discriminate|reflexivity].
Qed.

End FolderStep.

Lemma new_folder_outcome_witness :
  exists b w',
    new_folder Example.short_site "out\Bob B" Example.empty_world = (Ok b, w')
    /\ b = true /\ fs w' !! "out\Bob B" = Some ∅.
Proof.
  destruct (new_folder_outcome Example.short_site "out\Bob B"
              Example.empty_world)
    as (b & w' & Hrun & Hb & _ & _ & _ & Hnew).
  exists b, w'. split; [exact Hrun|].
  assert (Hb' : b = true) by (rewrite Hb; reflexivity).
  split; [exact Hb'|]. apply Hnew; [reflexivity|exact Hb'].
Defined.

(** ** The co-authors line *)

Lemma concat_cons (x : string) (xs : list string) :
  String.concat "" (x :: xs) = x +:+ String.concat "" xs.
Proof.
  destruct xs as [|y ys]; simpl; [|reflexivity].
  induction x as [|c x IH]; simpl; [reflexivity|].
  unfold String.append in *. fold String.append in *. now rewrite <- IH.
Qed.

Lemma co_authors_loop_named (names : list string) (acc : string) :
  co_authors_loop (map named names) acc
  = Ok (acc +:+ String.concat "" (map (fun n => nl +:+ n) names)).
Proof.
  revert acc; induction names as [|n names IH]; intros acc.
  - simpl. f_equal. induction acc as [|c acc IHa]; [reflexivity|].
    change (String c acc +:+ "") with (String c (acc +:+ "")).
    now rewrite <- IHa.
  - cbn [map co_authors_loop named co_name getitem res_bind].
    rewrite IH, concat_cons. f_equal.
    now rewrite !PyStrFacts.app_assoc_s.
Qed.

Lemma co_authors_loop_unnamed (cs : list coauthor) (acc : string) :
  Exists (fun c => co_name c = None) cs ->
  co_authors_loop cs acc = Raise KeyError.
Proof.
  intros H. revert acc; induction H as [c cs Hc|c cs _ IH]; intros acc; simpl.
  - now rewrite Hc.
  - destruct (co_name c); [apply IH|reflexivity].
Qed.

(** X2. The co-authors line is the number of co-authors between
    parentheses and a colon, then each name on a line of its own, in the
    order of the list; a co-author without a name makes it raise
    [KeyError]. *)
Theorem co_authors_str_format :
  (forall names,
      get_co_authors_str (map named names)
      = Ok (" (" +:+ pretty (length names) +:+ "):"
            +:+ String.concat "" (map (fun n => nl +:+ n) names)))
  /\ (forall cs,
        Exists (fun c => co_name c = None) cs ->
        get_co_authors_str cs = Raise KeyError).
Proof.
  split.
  - intros names. unfold get_co_authors_str.
    rewrite co_authors_loop_named, length_map. f_equal.
    now rewrite !PyStrFacts.app_assoc_s.
  - intros cs H. unfold get_co_authors_str.
    now apply co_authors_loop_unnamed.
Qed.

Lemma co_authors_str_format_witness :
  get_co_authors_str [named "Ann"; {| co_name := None |}] = Raise KeyError.
Proof.
  apply (proj2 co_authors_str_format). right. left. reflexivity.
Defined.

(** ** Citation Aggregator: any values *)

Lemma since_n_loop_is_first_10 (vals : list pyval) (n check total i : Z) :
  n <= check ->
  since_n_loop vals n check total i = first_10_loop vals total i.
Proof.
  intros Hn. revert total i; induction vals as [|v vals IH]; intros total i;
    simpl; [reflexivity|].
  replace (check >=? n) with true by lia.
  destruct (py_add total v) as [t|e]; simpl; [|reflexivity].
  destruct (i + 1 >=? 10); [reflexivity|apply IH].
Qed.

(** X3. With a threshold that is zero or negative the total after the
    threshold is the first-ten-years total, on every dictionary (the
    running sum starts at 0, so the threshold is reached before the first
    value is read); both raise on the same dictionaries. *)
Theorem since_n_without_threshold (citations : pydict) (n : Z) :
  n <= 0 ->
  get_num_of_citations_since_n_citations citations n
  = get_num_of_first_10_years_citations citations.
Proof.
  intros Hn. unfold get_num_of_citations_since_n_citations,
    get_num_of_first_10_years_citations.
  now apply since_n_loop_is_first_10.
Qed.

Lemma since_n_without_threshold_witness :
  get_num_of_citations_since_n_citations Example.series 0
  = get_num_of_first_10_years_citations Example.series.
Proof. apply since_n_without_threshold. lia. Defined.

Lemma first_10_loop_window (vals : list pyval) (total i : Z) :
  0 <= i < 10 ->
  first_10_loop vals total i
  = first_10_loop (take (Z.to_nat (10 - i)) vals) total i.
Proof.
  revert total i; induction vals as [|v vals IH]; intros total i Hi.
  - now rewrite take_nil.
  - replace (Z.to_nat (10 - i)) with (S (Z.to_nat (10 - (i + 1)))) by lia.
    cbn [take firstn first_10_loop].
    destruct (py_add total v) as [t|e]; simpl; [|reflexivity].
    destruct (i + 1 >=? 10) eqn:Hge; [reflexivity|]. apply IH. lia.
Qed.

Lemma first_10_loop_numbers (vals : list pyval) (total i : Z) :
  Forall (fun v => v <> VNone) vals ->
  exists z, first_10_loop vals total i = Ok z.
Proof.
  intros H. revert total i; induction H as [|v vals Hv _ IH]; intros total i.
  - simpl. eauto.
  - simpl. destruct v as [z|]; [|congruence]. simpl.
    destruct (i + 1 >=? 10); [eauto|apply IH].
Qed.

Lemma first_10_loop_not_number (vals : list pyval) (total i : Z) :
  0 <= i < 10 ->
  Exists (fun v => v = VNone) (take (Z.to_nat (10 - i)) vals) ->
  first_10_loop vals total i = Raise TypeError.
Proof.
  revert total i; induction vals as [|v vals IH]; intros total i Hi H.
  - rewrite take_nil in H. inversion H.
  - replace (Z.to_nat (10 - i)) with (S (Z.to_nat (10 - (i + 1)))) in H by lia.
    cbn [take firstn] in H. simpl. destruct v as [z|]; [|reflexivity].
    simpl. inversion H as [? ? Hz|? ? Hrest]; subst; [discriminate|].
    destruct (i + 1 >=? 10) eqn:Hge.
    + replace (Z.to_nat (10 - (i + 1))) with O in Hrest by lia.
      rewrite take_0 in Hrest. inversion Hrest.
    + apply IH; [lia|exact Hrest].
Qed.

(** X4. The first-ten-years total reads the first ten values of the
    dictionary and no other: it is the total of the dictionary cut after
    its tenth item, whatever the values are.  It returns when these ten are
    numbers, and raises [TypeError] when one of them is not; a value that
    is not a number after the tenth is never seen. *)
Theorem first_10_years_window (citations : pydict) :
  get_num_of_first_10_years_citations citations
  = get_num_of_first_10_years_citations (take 10 citations)
  /\ (Forall (fun v => v <> VNone) (take 10 (values citations)) ->
      exists z, get_num_of_first_10_years_citations citations = Ok z)
  /\ (Exists (fun v => v = VNone) (take 10 (values citations)) ->
      get_num_of_first_10_years_citations citations = Raise TypeError).
Proof.
  unfold get_num_of_first_10_years_citations, values.
  split; [|split].
  - rewrite (first_10_loop_window (map snd citations)) by lia.
    now rewrite <- firstn_map.
  - intros H. rewrite first_10_loop_window by lia.
    now apply first_10_loop_numbers.
  - intros H. now apply first_10_loop_not_number.
Qed.

Lemma first_10_years_window_witness :
  (exists z,
      get_num_of_first_10_years_citations
        (map (fun v => (VInt 2000, v))
             [VInt 1; VInt 2; VInt 3; VInt 4; VInt 5; VInt 6; VInt 7; VInt 8;
              VInt 9; VInt 10; VNone]) = Ok z)
  /\ get_num_of_first_10_years_citations [(VInt 2000, VInt 1); (VInt 2001, VNone)]
     = Raise TypeError.
Proof.
  split.
  - apply (proj1 (proj2 (first_10_years_window _))).
    cbn. repeat constructor; discriminate.
  - apply (proj2 (proj2 (first_10_years_window _))).
    cbn. right. left. reflexivity.
Defined.

(** ** Profile links *)

Section ProfileLinks.
Import PyStr PyStrFacts.

Lemma find_after_prefix (c : ascii) (sub p s : string) :
  occurs c p = false ->
  find (String c sub) (p +:+ s)
  = option_map (Nat.add (String.length p)) (find (String c sub) s).
Proof.
  induction p as [|a p IH]; intros Hp.
  - change ("" +:+ s) with s. now destruct (find (String c sub) s).
  - simpl in Hp. apply orb_false_elim in Hp as [Hac Hp].
    change (String a p +:+ s) with (String a (p +:+ s)).
    rewrite find_eq. cbn [startswith].
    rewrite Ascii.eqb_sym, Hac. cbn [andb]. rewrite (IH Hp).
    now destruct (find (String c sub) s).
Qed.

Lemma get_author_id_after_prefix (p s : string) :
  occurs "u" p = false -> get_author_id (p +:+ s) = get_author_id s.
Proof.
  intros Hp. unfold get_author_id, index.
  rewrite (find_after_prefix "u" "ser=" p s Hp).
  destruct (find "user=" s) as [i|]; [|reflexivity]. cbn [option_map res_bind].
  f_equal. rewrite <- Nat.add_assoc, drop_add. now rewrite drop_app.
Qed.

(** X5. The author id of a dispatched profile link is the id of the
    reference found on the page: putting the base URL of the site in front
    changes neither the id nor the failure on a reference without marker. *)
Theorem author_id_of_profile_link (soup : string) :
  (forall postfix,
      get_author_id (GOOGLE_SCHOLAR_URL_PREFIX +:+ postfix)
      = get_author_id postfix)
  /\ map get_author_id (profile_links_of soup)
     = map get_author_id (Re.findall REGEX_TO_FIND_AUTHOR_NAME soup).
Proof.
  assert (H : forall postfix,
             get_author_id (GOOGLE_SCHOLAR_URL_PREFIX +:+ postfix)
             = get_author_id postfix)
    by (intros postfix; now apply get_author_id_after_prefix).
  split; [exact H|]. unfold profile_links_of. rewrite map_map.
  apply map_ext. exact H.
Qed.

End ProfileLinks.

Module ReFacts.
Import Re PyStr PyStrFacts.
#[local] Arguments String.append !_ _ / : simpl nomatch.

Lemma match_toks_literal (ts : list tok) (lit s rest : string) :
  literal ts = Some lit -> match_toks ts s = Some rest -> s = lit +:+ rest.
Proof.
  revert lit s; induction ts as [|t ts IH]; intros lit s Hl Hm.
  - simpl in *. injection Hl as <-. injection Hm as <-. reflexivity.
  - destruct t as [c|]; [|discriminate Hl]. simpl in Hl.
    destruct (literal ts) as [lit'|]; [|discriminate Hl].
    injection Hl as <-. destruct s as [|a s]; [discriminate Hm|].
    simpl in Hm. destruct (Ascii.eqb c a) eqn:Hca; [|discriminate Hm].
    apply Ascii.eqb_eq in Hca as ->. simpl. f_equal. now apply IH.
Qed.

Lemma match_toks_literal_complete (ts : list tok) (lit rest : string) :
  literal ts = Some lit -> match_toks ts (lit +:+ rest) = Some rest.
Proof.
  revert lit; induction ts as [|t ts IH]; intros lit Hl.
  - simpl in Hl. injection Hl as <-. reflexivity.
  - destruct t as [c|]; [|discriminate Hl]. simpl in Hl.
    destruct (literal ts) as [lit'|]; [|discriminate Hl].
    injection Hl as <-. simpl. rewrite Ascii.eqb_refl. now apply IH.
Qed.

Lemma drop_app_le (k : nat) (g x : string) :
  (k <= String.length g)%nat -> drop k (g +:+ x) = drop k g +:+ x.
Proof.
  revert k; induction g as [|c g IH]; intros k Hk.
  - simpl in Hk. replace k with O by lia. reflexivity.
  - destruct k as [|k]; [reflexivity|]. simpl. apply IH. simpl in Hk. lia.
Qed.

Lemma lazy_more_eq (post : list tok) (s : string) :
  lazy_more post s =
  match match_toks post s with
  | Some _ => Some ""
  | None =>
      match s with
      | "" => None
      | String c s' =>
          if Ascii.eqb c newline then None
          else option_map (String c) (lazy_more post s')
      end
  end.
Proof. destruct s; reflexivity. Qed.

(** The lazy group stops at the first place where [post] matches. *)
Lemma lazy_more_sound (post : list tok) (s g : string) :
  lazy_more post s = Some g ->
  occurs newline g = false
  /\ (exists s2 rest, s = g +:+ s2 /\ match_toks post s2 = Some rest)
  /\ (forall k, (k < String.length g)%nat -> match_toks post (drop k s) = None).
Proof.
  revert g; induction s as [|c s IH]; intros g; rewrite lazy_more_eq.
  - destruct (match_toks post "") as [rest|] eqn:Hm; [|discriminate].
    intros [= <-]. split; [reflexivity|]. split; [now exists "", rest|].
    simpl. lia.
  - destruct (match_toks post (String c s)) as [rest|] eqn:Hm.
    + intros [= <-]. split; [reflexivity|].
      split; [now exists (String c s), rest|]. simpl. lia.
    + destruct (Ascii.eqb c newline) eqn:Hc; [discriminate|].
      destruct (lazy_more post s) as [g'|] eqn:Hg; [|discriminate].
      intros [= <-]. destruct (IH g' eq_refl) as (Hnl & (s2 & rest & -> & Hp) & Hmin).
      split; [simpl; now rewrite Hc|].
      split; [now exists s2, rest|].
      intros [|k] Hk; [exact Hm|]. simpl. apply Hmin. simpl in Hk. lia.
Qed.

Lemma lazy_group_sound (post : list tok) (s g : string) :
  lazy_group post s = Some g ->
  g <> "" /\ occurs newline g = false
  /\ (exists s2 rest, s = g +:+ s2 /\ match_toks post s2 = Some rest)
  /\ (forall k, (1 <= k < String.length g)%nat ->
                match_toks post (drop k s) = None).
Proof.
  unfold lazy_group. destruct s as [|c s]; [discriminate|].
  destruct (Ascii.eqb c newline) eqn:Hc; [discriminate|].
  destruct (lazy_more post s) as [g'|] eqn:Hg; [|discriminate].
  intros [= <-].
  destruct (lazy_more_sound post s g' Hg) as (Hnl & (s2 & rest & -> & Hp) & Hmin).
  split; [discriminate|]. split; [simpl; now rewrite Hc|].
  split; [now exists s2, rest|].
  intros [|k] Hk; [lia|]. simpl. apply Hmin. simpl in Hk. lia.
Qed.

Lemma findall_go_sound (r : regex) (s : string) :
  forall (k : nat) (g : string),
    In g (findall_go r k s) ->
    exists a s', s = a +:+ s' /\ match_here r s' = Some g.
Proof.
  induction s as [|c s IH]; intros k g Hin; [contradiction|].
  cbn [findall_go] in Hin.
  assert (Hrest : forall k', In g (findall_go r k' s) ->
                             exists a s', String c s = a +:+ s'
                                          /\ match_here r s' = Some g).
  { intros k' H. destruct (IH k' g H) as (a & s' & -> & Hm).
    now exists (String c a), s'. }
  destruct k as [|k]; [|now apply (Hrest k)].
  destruct (match_here r (String c s)) as [g0|] eqn:Hm; [|now apply (Hrest O)].
  destruct Hin as [<-|Hin]; [now exists "", (String c s)|].
  now apply (Hrest _ Hin).
Qed.

Lemma match_here_sound (r : regex) (lp lq s g : string) :
  literal (pre r) = Some lp -> literal (post r) = Some lq ->
  match_here r s = Some g ->
  g <> "" /\ occurs newline g = false
  /\ (exists b, s = lp +:+ g +:+ lq +:+ b)
  /\ (forall k b, (1 <= k < String.length g)%nat ->
                  drop k g <> lq +:+ b).
Proof.
  intros Hp Hq. unfold match_here.
  destruct (match_toks (pre r) s) as [rest|] eqn:Hm; [|discriminate].
  intros Hg. pose proof (match_toks_literal _ _ _ _ Hp Hm) as ->.
  destruct (lazy_group_sound _ _ _ Hg) as (Hne & Hnl & (s2 & b & -> & Hpost) & Hmin).
  pose proof (match_toks_literal _ _ _ _ Hq Hpost) as ->.
  split; [exact Hne|]. split; [exact Hnl|]. split; [now exists b|].
  intros k b' Hk Heq. specialize (Hmin k Hk).
  rewrite drop_app_le, Heq, app_assoc_s in Hmin by lia.
  rewrite (match_toks_literal_complete _ _ _ Hq) in Hmin. discriminate Hmin.
Qed.

End ReFacts.

(** X6. Every profile link of a page is the base URL followed by a
    reference that stands in the page between the opening of an author
    anchor and the end of its tag.  The reference is not empty, has no line
    break, and stops at the first end of tag after its first character. *)
Theorem profile_links_sound (soup link : string) :
  In link (profile_links_of soup) ->
  exists postfix a b,
    link = GOOGLE_SCHOLAR_URL_PREFIX +:+ postfix
    /\ postfix <> "" /\ occurs PyStr.newline postfix = false
    /\ soup = a +:+ ("gs_ai_name" +:+ PyStr.dq +:+ "><a href=" +:+ PyStr.dq)
                +:+ postfix +:+ (PyStr.dq +:+ ">") +:+ b
    /\ (forall k rest, (1 <= k < String.length postfix)%nat ->
                       PyStr.drop k postfix <> (PyStr.dq +:+ ">") +:+ rest).
Proof.
  unfold profile_links_of. intros Hin. apply in_map_iff in Hin as (postfix & <- & Hin).
  destruct (ReFacts.findall_go_sound _ _ _ _ Hin) as (a & s' & -> & Hm).
  destruct (ReFacts.match_here_sound REGEX_TO_FIND_AUTHOR_NAME
              ("gs_ai_name" +:+ PyStr.dq +:+ "><a href=" +:+ PyStr.dq)
              (PyStr.dq +:+ ">") s' postfix eq_refl eq_refl Hm)
    as (Hne & Hnl & (b & ->) & Hmin).
  exists postfix, a, b. repeat split; auto.
Qed.

Lemma profile_links_sound_witness :
  exists postfix a b,
    Example.profile_link "bob" = GOOGLE_SCHOLAR_URL_PREFIX +:+ postfix
    /\ postfix <> "" /\ occurs PyStr.newline postfix = false
    /\ Example.last_page
       = a +:+ ("gs_ai_name" +:+ PyStr.dq +:+ "><a href=" +:+ PyStr.dq)
           +:+ postfix +:+ (PyStr.dq +:+ ">") +:+ b
    /\ (forall k rest, (1 <= k < String.length postfix)%nat ->
                       PyStr.drop k postfix <> (PyStr.dq +:+ ">") +:+ rest).
Proof.
  apply (profile_links_sound Example.last_page (Example.profile_link "bob")).
  vm_compute. left. reflexivity.
Defined.

(** ** More on the Author Extractor *)

Section AuthorMore.
Context (E : env).

Ltac fs_simpl :=
  cbn [fs trace log with_fs fst snd];
  rewrite ?lookup_insert_eq, ?lookup_delete_eq, ?delete_insert_eq.

Ltac known_lookups :=
  repeat match goal with
         | H : ?x = Some _ |- context [match ?x with _ => _ end] => rewrite H
         | H : ?x = None |- context [match ?x with _ => _ end] => rewrite H
         end.

Ltac folder_step cur :=
  rewrite new_folder_eq; fs_simpl;
  let Hcur := fresh "Hcur" in
  let Hmk := fresh "Hmk" in
  destruct (fs _ !! cur) as [?files|] eqn:Hcur;
    [|destruct (mkdir_fault _ cur) as [?fault|] eqn:Hmk];
  cbn beta iota.

Ltac picture_step :=
  rewrite save_picture_eq; fs_simpl;
  let Hurl := fresh "Hurl" in
  let Hget := fresh "Hget" in
  let Hopen := fresh "Hopen" in
  destruct (url_picture _) as [?url|] eqn:Hurl;
    [cbn zeta; destruct (requests_get _ _) as [?content|] eqn:Hget;
       [known_lookups;
        destruct (open_fault _ (_ +:+ "\" +:+ PICTURE)) as [?fault|] eqn:Hopen|]|];
  cbn beta iota.

Ltac statistics_step :=
  rewrite derived_statistics_eq; fs_simpl;
  let Hst := fresh "Hst" in
  destruct (statistics _) as [?stats|?e] eqn:Hst;
  cbn beta iota zeta; fs_simpl; known_lookups; cbn beta iota.

Ltac data_step :=
  rewrite save_data_eq; fs_simpl; known_lookups;
  let Hopen := fresh "Hopen_data" in
  let HL := fresh "HL" in
  let Hline := fresh "Hline" in
  destruct (open_fault _ (_ +:+ "\" +:+ DATA)) as [?fault|] eqn:Hopen;
    [|destruct (data_lines _ _ _ _) as [?L|?e] eqn:HL;
       [destruct (last_line _ _) as [?line|?e] eqn:Hline|]];
  cbn beta iota.

(** Every path of [create_profile] from the folder on. *)
Ltac all_paths cur :=
  folder_step cur;
  [picture_step; [|statistics_step; [data_step|]| |statistics_step; [data_step|]]
  |
  |picture_step; [|statistics_step; [data_step|]| |statistics_step; [data_step|]]].

(** X7. [create_profile] changes no directory but the one of its author,
    whatever the outcome; and on a link that does not resolve to a profile
    with a name it changes no directory at all. *)
Theorem create_profile_frame (link out : string) (w : world) :
  (forall author_id author author_name,
      resolves E link author_id author author_name ->
      forall q, q <> folder_path out author_name ->
                fs (snd (create_profile E link out w)) !! q = fs w !! q)
  /\ ((forall author_id author author_name,
          ~ resolves E link author_id author author_name) ->
      fs (snd (create_profile E link out w)) = fs w).
Proof.
  split.
  - intros author_id author author_name Hres q Hq.
    rewrite (create_profile_eq E link out w _ _ _ Hres). cbn zeta.
    set (cur := folder_path out author_name) in *.
    all_paths cur; fs_simpl;
      rewrite ?lookup_insert_ne, ?lookup_delete_ne by congruence; reflexivity.
  - intros Hnone.
    unfold create_profile, save_profile, search_and_fill, bind, lift, emit, ret,
      getitem.
    destruct (get_author_id link) as [author_id|] eqn:Hid; [|reflexivity].
    cbn beta iota.
    destruct (scholarly_fetch E author_id) as [author|] eqn:Hf; [|reflexivity].
    cbn beta iota.
    destruct (name author) as [author_name|] eqn:Hn; [|reflexivity].
    now destruct (Hnone author_id author author_name).
Qed.

Lemma success_inv (link out : string) (w w' : world)
    (author_id : string) (author : profile) (author_name : string) :
  resolves E link author_id author author_name ->
  create_profile E link out w = (Ok true, w') ->
  exists stats L line,
    succeeds E author (folder_path out author_name) w stats L line
    /\ fs w'
       = <[folder_path out author_name :=
             <[DATA := String.concat "" L +:+ line]>
               (with_picture E author
                  (files_of (fs w) (folder_path out author_name)))]> (fs w).
Proof.
  intros Hres H. revert H.
  rewrite (create_profile_eq E link out w _ _ _ Hres). cbn zeta.
  set (cur := folder_path out author_name) in *.
  unfold succeeds, folder_ok, picture_download_fails, with_picture, files_of.
  all_paths cur; intros Hret; try discriminate Hret; injection Hret as <-;
    exists stats, L, line; known_lookups; fs_simpl;
    rewrite ?insert_insert_eq; repeat split; first [assumption|reflexivity].
Qed.

Lemma success_run (link out : string) (w : world)
    (author_id : string) (author : profile) (author_name : string)
    (stats : Z * Z * Z) (L : list string) (line : string) :
  resolves E link author_id author author_name ->
  succeeds E author (folder_path out author_name) w stats L line ->
  exists w',
    create_profile E link out w = (Ok true, w')
    /\ fs w'
       = <[folder_path out author_name :=
             <[DATA := String.concat "" L +:+ line]>
               (with_picture E author
                  (files_of (fs w) (folder_path out author_name)))]> (fs w).
Proof.
  intros Hres (Hfolder & Hpic & Hst & Hopen & HL & Hline).
  rewrite (create_profile_eq E link out w _ _ _ Hres). cbn zeta.
  set (cur := folder_path out author_name) in *.
  unfold folder_ok, picture_download_fails, with_picture, files_of in *.
  folder_step cur; try discriminate Hfolder;
    (picture_step; try discriminate Hpic);
    rewrite derived_statistics_eq, Hst; cbn beta iota;
    rewrite save_data_eq; fs_simpl; known_lookups; rewrite ?Hopen;
    cbn beta iota; rewrite HL, Hline; cbn beta iota; eexists; (split; [reflexivity|]); fs_simpl;
    now rewrite ?insert_insert_eq.
Qed.

(** X8. For an author that resolves, [create_profile] returns [True]
    exactly when the directory step succeeds, the picture step does not
    fail, the statistics are computed, the text file can be opened, every
    item of the text is there and the last year can be read.  The directory
    of the author then holds the text, made of the items and the last line,
    in place of any earlier text, and the picture when there is one; its
    other files and the other directories are as before. *)
Theorem create_profile_succeeds_iff (link out : string) (w : world)
    (author_id : string) (author : profile) (author_name : string) :
  resolves E link author_id author author_name ->
  let cur := folder_path out author_name in
  ((exists w', create_profile E link out w = (Ok true, w'))
   <-> exists stats L line, succeeds E author cur w stats L line)
  /\ (forall w',
        create_profile E link out w = (Ok true, w') ->
        exists stats L line,
          succeeds E author cur w stats L line
          /\ fs w' = <[cur := <[DATA := String.concat "" L +:+ line]>
                                (with_picture E author (files_of (fs w) cur))]>
                       (fs w)).
Proof.
  intros Hres cur. split; [split|].
  - intros [w' H]. destruct (success_inv _ _ _ _ _ _ _ Hres H)
      as (stats & L & line & Hs & _). now exists stats, L, line.
  - intros (stats & L & line & Hs).
    destruct (success_run _ _ _ _ _ _ _ _ _ Hres Hs) as (w' & H & _).
    now exists w'.
  - intros w' H. exact (success_inv _ _ _ _ _ _ _ Hres H).
Qed.

Lemma with_picture_again (author : profile) (text : string)
    (files : gmap string string) :
  <[DATA := text]>
    (with_picture E author (<[DATA := text]> (with_picture E author files)))
  = <[DATA := text]> (with_picture E author files).
Proof.
  unfold with_picture. destruct (url_picture author) as [url|].
  - destruct (requests_get E url) as [content|].
    + rewrite (insert_insert_ne _ PICTURE DATA) by discriminate.
      now rewrite !insert_insert_eq.
    + now rewrite insert_insert_eq.
  - now rewrite insert_insert_eq.
Qed.

(** X9. Running [create_profile] again on an author that was just saved
    succeeds again (the directory that is there is not an error) and leaves
    the directory tree as it is: the files are written over with the same
    contents. *)
Theorem create_profile_again (link out : string) (w w1 : world) :
  create_profile E link out w = (Ok true, w1) ->
  exists w2, create_profile E link out w1 = (Ok true, w2) /\ fs w2 = fs w1.
Proof.
  intros H.
  destruct (create_profile_returns E _ _ _ _ _ H)
    as (author_id & author & author_name & Hres).
  destruct (success_inv _ _ _ _ _ _ _ Hres H)
    as (stats & L & line & (Hfolder & Hpic & Hrest) & Hfs).
  set (cur := folder_path out author_name) in *.
  assert (Hcur : fs w1 !! cur = Some (<[DATA := String.concat "" L +:+ line]>
                                        (with_picture E author (files_of (fs w) cur))))
    by (rewrite Hfs; apply lookup_insert_eq).
  assert (Hs1 : succeeds E author cur w1 stats L line).
  { split; [unfold folder_ok; now rewrite Hcur|]. split; assumption. }
  destruct (success_run _ _ _ _ _ _ _ _ _ Hres Hs1) as (w2 & Hrun & Hfs2).
  exists w2. split; [exact Hrun|]. fold cur in Hfs2. rewrite Hfs2.
  unfold files_of at 1. rewrite Hcur, with_picture_again.
  rewrite Hfs. now rewrite insert_insert_eq.
Qed.

(** X10. An exception of [create_profile] on an author that resolves comes
    from the text artifact and from nowhere else: the directory step and
    the picture step went through, the statistics were computed, and the
    exception is the refusal to open the text file, the [KeyError] of a
    missing item, or the error of reading the last year.  The directory of
    the author is left on disk, with the text file empty or without its
    last line once it was opened. *)
Theorem create_profile_raises (link out : string) (w w' : world) (e : exn)
    (author_id : string) (author : profile) (author_name : string) :
  resolves E link author_id author author_name ->
  create_profile E link out w = (Raise e, w') ->
  let cur := folder_path out author_name in
  folder_ok E cur w = true
  /\ picture_download_fails E author cur = false
  /\ exists stats files,
       statistics author = Ok stats
       /\ fs w' !! cur = Some files
       /\ ((exists fault, open_fault E (cur +:+ "\" +:+ DATA) = Some fault
                          /\ e = exn_of_fault fault)
           \/ (open_fault E (cur +:+ "\" +:+ DATA) = None
               /\ data_lines author (fst (fst stats)) (snd (fst stats)) (snd stats)
                  = Raise e
               /\ files !! DATA = Some "")
           \/ (open_fault E (cur +:+ "\" +:+ DATA) = None
               /\ exists L,
                    data_lines author (fst (fst stats)) (snd (fst stats))
                      (snd stats) = Ok L
                    /\ last_line E author = Raise e
                    /\ files !! DATA = Some (String.concat "" L))).
Proof.
  intros Hres H. revert H.
  rewrite (create_profile_eq E link out w _ _ _ Hres). cbn zeta.
  set (cur := folder_path out author_name) in *.
  unfold folder_ok, picture_download_fails.
  all_paths cur; intros Hret; try discriminate Hret;
    injection Hret as <- <-; known_lookups;
    (split; [reflexivity|]); (split; [reflexivity|]);
    eexists; eexists; (split; [reflexivity|]);
    cbn [fs trace log with_fs fst snd];
    (split; [first [apply lookup_insert_eq|eassumption]|]).
  all: first
    [ left; eexists; split; reflexivity
    | right; left; split; [reflexivity|]; split; [assumption|];
      apply lookup_insert_eq
    | right; right; split; [reflexivity|]; exists L; split; [assumption|];
      split; [reflexivity|]; apply lookup_insert_eq ].
Qed.

(** X11. An author whose citation series is there but empty is not rolled
    back: the statistics are computed (all 0), the text file is written up
    to its last line, and reading the last year raises [IndexError], which
    leaves [create_profile] and the page loop; the directory stays on disk
    with the text without its last line. *)
Theorem empty_series_raises (link out : string) (w : world)
    (author_id : string) (author : profile) (author_name : string)
    (L : list string) :
  resolves E link author_id author author_name ->
  cites_per_year author = Some [] ->
  folder_ok E (folder_path out author_name) w = true ->
  picture_download_fails E author (folder_path out author_name) = false ->
  open_fault E (folder_path out author_name +:+ "\" +:+ DATA) = None ->
  data_lines author 0 0 0 = Ok L ->
  exists w' files,
    create_profile E link out w = (Raise IndexError, w')
    /\ fs w' !! folder_path out author_name = Some files
    /\ files !! DATA = Some (String.concat "" L)
    /\ forall rest, dispatch E (link :: rest) out w = (Raise IndexError, w').
Proof.
  intros Hres Hc Hfolder Hpic Hopen HL.
  assert (Hst : statistics author = Ok (0, 0, 0))
    by (unfold statistics; rewrite Hc; reflexivity).
  assert (Hline : last_line E author = Raise IndexError)
    by (unfold last_line; rewrite Hc; reflexivity).
  assert (Hrun : exists w' files,
             create_profile E link out w = (Raise IndexError, w')
             /\ fs w' !! folder_path out author_name = Some files
             /\ files !! DATA = Some (String.concat "" L)).
  { rewrite (create_profile_eq E link out w _ _ _ Hres). cbn zeta.
    set (cur := folder_path out author_name) in *.
    unfold folder_ok, picture_download_fails in *.
    folder_step cur; try discriminate Hfolder;
      (picture_step; try discriminate Hpic);
      rewrite derived_statistics_eq, Hst; cbn beta iota;
      rewrite save_data_eq; fs_simpl; known_lookups; rewrite ?Hopen;
      cbn [fst snd]; rewrite HL, Hline; cbn beta iota;
      eexists; eexists; (split; [reflexivity|]);
      cbn [fs trace log with_fs fst snd];
      (split; [apply lookup_insert_eq|apply lookup_insert_eq]). }
  destruct Hrun as (w' & files & Hrun & Hdir & Hdata).
  exists w', files. repeat split; try assumption.
  intros rest. now rewrite dispatch_cons, Hrun.
Qed.

End AuthorMore.

Section AuthorMoreExamples.
Import Example.

Lemma create_profile_frame_witness :
  fs (snd (create_profile short_site (profile_link "bob") "out"
             (snd (create_profile short_site (profile_link "alice") "out"
                     empty_world))))
    !! folder_path "out" "Alice A"
  = fs (snd (create_profile short_site (profile_link "alice") "out"
               empty_world))
    !! folder_path "out" "Alice A".
Proof.
  apply (proj1 (create_profile_frame short_site (profile_link "bob") "out" _)
           "bob" bob "Bob B").
  - apply resolves_example; reflexivity.
  - discriminate.
Defined.

Lemma create_profile_succeeds_iff_witness :
  exists w', create_profile short_site (profile_link "alice") "out" empty_world
             = (Ok true, w').
Proof.
  apply (proj1 (create_profile_succeeds_iff short_site (profile_link "alice")
                  "out" empty_world "alice" alice "Alice A"
                  ltac:(apply resolves_example; reflexivity))).
  destruct (statistics alice) as [stats|] eqn:Hst; [|discriminate Hst].
  destruct (data_lines alice (fst (fst stats)) (snd (fst stats)) (snd stats))
    as [L|] eqn:HL;
    [|vm_compute in Hst; injection Hst as <-; vm_compute in HL; discriminate HL].
  destruct (last_line short_site alice) as [line|] eqn:Hline;
    [|discriminate Hline].
  exists stats, L, line. repeat split; try reflexivity; assumption.
Defined.

Lemma create_profile_again_witness :
  exists w2,
    create_profile short_site (profile_link "alice") "out"
      (snd (create_profile short_site (profile_link "alice") "out" empty_world))
    = (Ok true, w2)
    /\ fs w2
       = fs (snd (create_profile short_site (profile_link "alice") "out"
                    empty_world)).
Proof.
  apply (create_profile_again short_site (profile_link "alice") "out"
           empty_world).
  vm_compute. reflexivity.
Defined.

Lemma create_profile_raises_witness :
  folder_ok Example2.site (folder_path "out" "Hank H") empty_world = true
  /\ picture_download_fails Example2.site Example2.hank
       (folder_path "out" "Hank H") = false
  /\ exists stats files,
       statistics Example2.hank = Ok stats
       /\ fs (snd (create_profile Example2.site (profile_link "hank") "out"
                     empty_world)) !! folder_path "out" "Hank H" = Some files
       /\ ((exists fault,
               open_fault Example2.site
                 (folder_path "out" "Hank H" +:+ "\" +:+ DATA) = Some fault
               /\ KeyError = exn_of_fault fault)
           \/ (open_fault Example2.site
                 (folder_path "out" "Hank H" +:+ "\" +:+ DATA) = None
               /\ data_lines Example2.hank (fst (fst stats)) (snd (fst stats))
                    (snd stats) = Raise KeyError
               /\ files !! DATA = Some "")
           \/ (open_fault Example2.site
                 (folder_path "out" "Hank H" +:+ "\" +:+ DATA) = None
               /\ exists L,
                    data_lines Example2.hank (fst (fst stats)) (snd (fst stats))
                      (snd stats) = Ok L
                    /\ last_line Example2.site Example2.hank = Raise KeyError
                    /\ files !! DATA = Some (String.concat "" L))).
Proof.
  apply (create_profile_raises Example2.site (profile_link "hank") "out"
           empty_world _ KeyError "hank" Example2.hank "Hank H").
  - repeat split; reflexivity.
  - vm_compute. reflexivity.
Defined.

Lemma empty_series_raises_witness :
  exists w' files,
    create_profile Example2.site (profile_link "erin") "out" empty_world
    = (Raise IndexError, w')
    /\ fs w' !! folder_path "out" "Erin E" = Some files
    /\ files !! DATA
       = Some (String.concat ""
                 (match data_lines Example2.erin 0 0 0 with
                  | Ok L => L
                  | Raise _ => []
                  end))
    /\ forall rest,
         dispatch Example2.site (profile_link "erin" :: rest) "out" empty_world
         = (Raise IndexError, w').
Proof.
  apply (empty_series_raises Example2.site (profile_link "erin") "out"
           empty_world "erin" Example2.erin "Erin E").
  - repeat split; reflexivity.
  - reflexivity.
  - reflexivity.
  - reflexivity.
  - reflexivity.
  - vm_compute. reflexivity.
Defined.

End AuthorMoreExamples.

(** ** More on the Paginator *)

Section PaginatorMore.
Context (E : env).

Lemma page_urls_app (a b : list event) :
  page_urls (a ++ b) = (page_urls a ++ page_urls b)%list.
Proof. apply flat_map_app. Qed.

Lemma page_urls_quiet (t : list event) : page_sites t = [] -> page_urls t = [].
Proof.
  induction t as [|e t IH]; [reflexivity|].
  destruct e as [msg|[] url|id]; simpl; try discriminate; exact IH.
Qed.

Lemma walk_follows (u v : string) (us vs : list string) :
  walk E u us v -> follows E v vs -> follows E u (us ++ vs).
Proof.
  induction 1 as [u|u content u' us v Hget Hnext _ IH]; intros Hv;
    [exact Hv|].
  simpl. eapply follows_step; eauto.
Qed.

Lemma walk_app (u v x : string) (us vs : list string) :
  walk E u us v -> walk E v vs x -> walk E u (us ++ vs) x.
Proof.
  induction 1 as [u|u content u' us v Hget Hnext _ IH]; intros Hv;
    [exact Hv|].
  simpl. eapply walk_step; eauto.
Qed.

Lemma skip_loop_fs (n : nat) (i : Z) (url : string) (w : world) :
  fs (snd (skip_loop E n i url w)) = fs w.
Proof.
  revert i url w; induction n as [|n IH]; intros i url w; [reflexivity|].
  rewrite skip_loop_S. cbn zeta.
  destruct (requests_get E url) as [content|]; [|reflexivity].
  destruct (next_page (soup_str E content)) as [url'|e]; [|reflexivity].
  now rewrite IH.
Qed.

(** The requests of a loop form a walk when it returns, and follow the
    links up to the last request when it raises. *)
Lemma skip_loop_walk (n : nat) (i : Z) (url : string) (w : world) :
  exists t,
    trace (snd (skip_loop E n i url w)) = (trace w ++ t)%list
    /\ match fst (skip_loop E n i url w) with
       | Ok v => walk E url (page_urls t) v
       | Raise _ => follows E url (page_urls t)
       end.
Proof.
  revert i url w; induction n as [|n IH]; intros i url w.
  - exists []. cbn. rewrite app_nil_r. split; [reflexivity|constructor].
  - rewrite skip_loop_S. cbn zeta.
    set (msg := "Currently skipping page number: " +:+ pretty (i + 1)).
    set (w1 := log (Get SkipPage url) (log (Print msg) w)).
    assert (Hw1 : trace w1 = (trace w ++ [Print msg; Get SkipPage url])%list)
      by (unfold w1; cbn; now rewrite <- app_assoc).
    destruct (requests_get E url) as [content|] eqn:Hget.
    2:{ exists [Print msg; Get SkipPage url]. split; [exact Hw1|].
        apply follows_stop. }
    destruct (next_page (soup_str E content)) as [url'|e] eqn:Hnext.
    2:{ exists [Print msg; Get SkipPage url]. split; [exact Hw1|].
        apply follows_stop. }
    destruct (IH (i + 1) url' w1) as (t & Ht & Hwalk).
    exists (Print msg :: Get SkipPage url :: t).
    split; [rewrite Ht, Hw1; now rewrite <- app_assoc|].
    destruct (fst (skip_loop E n (i + 1) url' w1)); simpl.
    + eapply walk_step; eauto.
    + eapply follows_step; eauto.
Qed.

Lemma load_loop_walk (n : nat) (i : Z) (url out : string) (w : world) :
  exists t,
    trace (snd (load_loop E n i url out w)) = (trace w ++ t)%list
    /\ match fst (load_loop E n i url out w) with
       | Ok v => walk E url (page_urls t) v
       | Raise _ => follows E url (page_urls t)
       end.
Proof.
  revert i url w; induction n as [|n IH]; intros i url w.
  - exists []. cbn. rewrite app_nil_r. split; [reflexivity|constructor].
  - rewrite load_loop_S. cbn zeta.
    set (msg := "Currently scraping page number: " +:+ pretty (i + 1)).
    set (w1 := log (Get LoadPage url) (log (Print msg) w)).
    assert (Hw1 : trace w1 = (trace w ++ [Print msg; Get LoadPage url])%list)
      by (unfold w1; cbn; now rewrite <- app_assoc).
    destruct (requests_get E url) as [content|] eqn:Hget.
    2:{ exists [Print msg; Get LoadPage url]. split; [exact Hw1|].
        apply follows_stop. }
    unfold load_10_researchers.
    destruct (dispatch_trace E (profile_links_of (soup_str E content)) out w1)
      as (ta & Hta & Hpa & _).
    apply page_urls_quiet in Hpa.
    destruct (dispatch E _ out w1) as [[[]|e] w2]; cbn [fst snd] in *;
      cbn beta iota.
    2:{ exists (Print msg :: Get LoadPage url :: ta).
        split; [rewrite Hta, Hw1; now rewrite <- app_assoc|].
        simpl. rewrite Hpa. apply follows_stop. }
    destruct (next_page (soup_str E content)) as [url'|e] eqn:Hnext.
    2:{ exists (Print msg :: Get LoadPage url :: ta). cbn [fst snd].
        split; [rewrite Hta, Hw1; now rewrite <- app_assoc|].
        simpl. rewrite Hpa. apply follows_stop. }
    destruct (IH (i + 1) url' w2) as (t & Ht & Hwalk).
    exists (Print msg :: Get LoadPage url :: (ta ++ t))%list.
    split; [rewrite Ht, Hta, Hw1; now rewrite <- !app_assoc|].
    simpl. rewrite page_urls_app, Hpa. simpl.
    destruct (fst (load_loop E n (i + 1) url' out w2)).
    + eapply walk_step; eauto.
    + eapply follows_step; eauto.
Qed.

Lemma skip_n_pages_walk (url : string) (n k : Z) (out : string) (w : world) :
  exists t,
    trace (snd (skip_n_pages E url n k out w)) = (trace w ++ t)%list
    /\ follows E url (page_urls t)
    /\ (fst (skip_n_pages E url n k out w) = Ok tt ->
        exists v, walk E url (page_urls t) v).
Proof.
  unfold skip_n_pages, load_n_pages, bind, ret.
  destruct (skip_loop_walk (Z.to_nat n) 0 url w) as (ts & Hts & Hs).
  destruct (skip_loop E (Z.to_nat n) 0 url w) as [[url'|e] w1];
    cbn [fst snd] in *.
  - destruct (load_loop_walk (Z.to_nat k) 0 url' out w1) as (tl & Htl & Hl).
    destruct (load_loop E (Z.to_nat k) 0 url' out w1) as [[v|e] w2];
      cbn [fst snd] in *; cbn beta iota;
      exists (ts ++ tl)%list; rewrite page_urls_app;
      (split; [now rewrite Htl, Hts, app_assoc|]).
    + split; [|intros _; exists v; now apply walk_app with (v := url')].
      rewrite <- (app_nil_r (page_urls tl)), app_assoc.
      apply walk_follows with (v := v); [|constructor].
      now apply walk_app with (v := url').
    + split; [now apply walk_follows with (v := url')|discriminate].
  - exists ts. split; [exact Hts|]. split; [exact Hs|discriminate].
Qed.

(** X12. The Paginator follows the links: the first page request goes to
    the given URL, and every later one, in the skip phase and in the load
    phase alike, goes to the next-page link resolved from the page
    delivered by the request before it.  When the run returns, every
    request was delivered a page that has a next-page link. *)
Theorem paginator_follows_links (url : string) (n k : Z) (out : string)
    (w : world) :
  exists t,
    trace (snd (skip_n_pages E url n k out w)) = (trace w ++ t)%list
    /\ follows E url (page_urls t)
    /\ (fst (skip_n_pages E url n k out w) = Ok tt ->
        exists v, walk E url (page_urls t) v).
Proof. apply skip_n_pages_walk. Qed.

Lemma skip_n_pages_nonpositive (url : string) (n k : Z) (out : string)
    (w : world) :
  n <= 0 -> skip_n_pages E url n k out w = load_n_pages E url k out w.
Proof.
  intros Hn. unfold skip_n_pages, bind.
  replace (Z.to_nat n) with O by lia. reflexivity.
Qed.

(** X13. The skip phase writes nothing: after any number of skipped pages
    the directory tree is as before, and a run that skips pages and loads
    none leaves the directory tree as it was and looks up no author. *)
Theorem skip_phase_reads_only (url : string) (n k : Z) (out : string)
    (w : world) :
  (forall count i, fs (snd (skip_loop E count i url w)) = fs w)
  /\ (k <= 0 ->
      fs (snd (skip_n_pages E url n k out w)) = fs w
      /\ exists t,
           trace (snd (skip_n_pages E url n k out w)) = (trace w ++ t)%list
           /\ lookups t = []).
Proof.
  split; [intros count i; apply skip_loop_fs|]. intros Hk.
  unfold skip_n_pages, load_n_pages, bind, ret.
  replace (Z.to_nat k) with O by lia.
  pose proof (skip_loop_fs (Z.to_nat n) 0 url w) as Hfs.
  destruct (skip_loop_trace E (Z.to_nat n) 0 url w)
    as (t & a & Ht & Hphase & _).
  destruct (skip_phase_sites a t Hphase) as [_ Hlook].
  destruct (skip_loop E (Z.to_nat n) 0 url w) as [[url'|e] w1];
    cbn [fst snd load_loop ret] in *; split; eauto.
Qed.

Lemma main_is_skip_n_pages (label_url : string) (pages : Z) (out : string)
    (skip : option Z) (w : world) :
  main E label_url pages out skip true w
  = skip_n_pages E label_url (match skip with Some n => n | None => 0 end)
      pages out w.
Proof.
  unfold main, run_pages.
  destruct skip as [n|]; [|now rewrite skip_n_pages_nonpositive].
  destruct (n =? 0) eqn:Hn; [|reflexivity].
  rewrite skip_n_pages_nonpositive; [reflexivity|lia].
Qed.

(** X14. In verbose mode [main] is [skip_n_pages] with a missing [--skip]
    read as 0; and a skip count that is missing, zero or negative skips
    nothing: the run is [load_n_pages] from the first page. *)
Theorem main_skip (label_url : string) (pages : Z) (out : string)
    (skip : option Z) (w : world) :
  main E label_url pages out skip true w
  = skip_n_pages E label_url (match skip with Some n => n | None => 0 end)
      pages out w
  /\ ((skip = None \/ exists n, skip = Some n /\ n <= 0) ->
      main E label_url pages out skip true w
      = load_n_pages E label_url pages out w).
Proof.
  split; [apply main_is_skip_n_pages|]. unfold main, run_pages.
  intros [->|(n & -> & Hn)]; [reflexivity|].
    destruct (n =? 0); [reflexivity|]. now apply skip_n_pages_nonpositive.
Qed.

End PaginatorMore.

Section PaginatorMoreExamples.
Import Example.

Lemma paginator_follows_links_witness :
  exists t v,
    trace (snd (skip_n_pages endless_site start_url 1 1 "out" empty_world))
    = t
    /\ walk endless_site start_url (page_urls t) v.
Proof.
  destruct (paginator_follows_links endless_site start_url 1 1 "out"
              empty_world) as (t & Ht & _ & Hok).
  destruct Hok as [v Hv]; [vm_compute; reflexivity|].
  exists t, v. split; [exact Ht|exact Hv].
Defined.

Lemma skip_phase_reads_only_witness :
  fs (snd (skip_n_pages short_site start_url 1 0 "out" empty_world))
  = fs empty_world.
Proof.
  apply (proj2 (skip_phase_reads_only short_site start_url 1 0 "out"
                  empty_world)).
  lia.
Defined.

Lemma main_skip_witness :
  main short_site start_url 2 "out" (Some (-3)) true empty_world
  = load_n_pages short_site start_url 2 "out" empty_world.
Proof.
  apply (proj2 (main_skip short_site start_url 2 "out" (Some (-3))
                  empty_world)).
  right. exists (-3). split; [reflexivity|lia].
Defined.

End PaginatorMoreExamples.
